(** * Credential engine of htmx_fastapi_user_demo

    A shallow embedding of the token minting and validation code
    ([auth/local.py], [auth/utils.py], [users.py]), of the account handlers
    ([auth/local.py] login and registration, [auth/google.py],
    [auth/vipps.py] callbacks, the [/auth/verify], [/auth/request-verify-token],
    [/auth/forgot-password] and [/auth/reset-password] handlers of [main.py]),
    of the pages behind the session cookie ([/dashboard], [/profile],
    [/api/dashboard-data]), of the mail background task of
    [utils/email.py] and the verification mails a registration queues, and
    of the parts of PyJWT and fastapi-users those handlers call. *)

From Stdlib Require Import String Ascii List ZArith Bool Lia.
From Stdlib Require Import DecimalFacts DecimalPos DecimalZ.
Import ListNotations.
Open Scope string_scope.
Open Scope Z_scope.

(** ** Python string and integer conversions *)
Module Py.

(** A Python [str] is a Rocq [string] whose characters are its code
    points; the model covers the [str] values whose code points lie below
    256.  In that range [str.isspace] holds for 9-13, 28-31, 32, U+0085 and
    U+00A0, and the only decimal digits are 0-9. *)

(** [c.isspace()] *)
Definition isspace (c : ascii) : bool :=
  match nat_of_ascii c with
  | 9 | 10 | 11 | 12 | 13 | 28 | 29 | 30 | 31 | 32 | 133 | 160 => true
  | _ => false
  end%nat.

(** [Py_ISSPACE]: the ASCII whitespace [PyLong_FromString] skips around
    the digits. *)
Definition is_space (c : ascii) : bool :=
  match nat_of_ascii c with
  | 32 | 9 | 10 | 11 | 12 | 13 => true
  | _ => false
  end%nat.

Fixpoint lstrip_by (p : ascii -> bool) (l : list ascii) : list ascii :=
  match l with
  | c :: r => if p c then lstrip_by p r else l
  | [] => []
  end.

(** The characters satisfying [p] removed at both ends. *)
Definition strip_by (p : ascii -> bool) (l : list ascii) : list ascii :=
  rev (lstrip_by p (rev (lstrip_by p l))).

(** [s.strip()] *)
Definition strip (s : string) : string :=
  string_of_list_ascii (strip_by isspace (list_ascii_of_string s)).

Fixpoint chars_of_uint (d : Decimal.uint) : list ascii :=
  match d with
  | Decimal.Nil => []
  | Decimal.D0 r => "0"%char :: chars_of_uint r
  | Decimal.D1 r => "1"%char :: chars_of_uint r
  | Decimal.D2 r => "2"%char :: chars_of_uint r
  | Decimal.D3 r => "3"%char :: chars_of_uint r
  | Decimal.D4 r => "4"%char :: chars_of_uint r
  | Decimal.D5 r => "5"%char :: chars_of_uint r
  | Decimal.D6 r => "6"%char :: chars_of_uint r
  | Decimal.D7 r => "7"%char :: chars_of_uint r
  | Decimal.D8 r => "8"%char :: chars_of_uint r
  | Decimal.D9 r => "9"%char :: chars_of_uint r
  end.

(** [str(n)] for a Python [int]: optional minus sign, then the decimal
    digits without leading zeros. *)
Definition str_of_Z (z : Z) : string :=
  string_of_list_ascii
    (match Z.to_int z with
     | Decimal.Pos d => chars_of_uint d
     | Decimal.Neg d => "-"%char :: chars_of_uint d
     end).

(** The digit a character stands for, if any. *)
Definition digit_of_char (c : ascii) : option (Decimal.uint -> Decimal.uint) :=
  match c with
  | "0" => Some Decimal.D0 | "1" => Some Decimal.D1 | "2" => Some Decimal.D2
  | "3" => Some Decimal.D3 | "4" => Some Decimal.D4 | "5" => Some Decimal.D5
  | "6" => Some Decimal.D6 | "7" => Some Decimal.D7 | "8" => Some Decimal.D8
  | "9" => Some Decimal.D9 | _ => None
  end%char.

(** The digit body of [int(s)]: one or more digits, a single underscore
    allowed between two digits.  [after] tells whether the previous
    character was a digit. *)
Fixpoint digits_body (after : bool) (l : list ascii) : option Decimal.uint :=
  match l with
  | [] => if after then Some Decimal.Nil else None
  | c :: r =>
      match digit_of_char c with
      | Some d =>
          match digits_body true r with
          | Some u => Some (d u)
          | None => None
          end
      | None =>
          if after && Ascii.eqb c "_" then
            match r with
            | [] => None
            | _ => digits_body false r
            end
          else None
      end
  end.

(** [_PyUnicode_TransformDecimalAndSpaceToASCII], which [int()] applies to
    a non-ASCII [str] before parsing, below code point 256: U+0085 and U+00A0
    become [" "]; every other character from 127 up becomes ["?"] there (and
    stays as it is in an ASCII [str]), which the parser rejects just as the
    character itself, so it is kept. *)
Definition int_transform (l : list ascii) : list ascii :=
  map (fun c => if isspace c && (127 <=? nat_of_ascii c)%nat then " "%char else c) l.

(** [int(s)] on a [str]: the transform, surrounding ASCII whitespace
    stripped, an optional sign, then the digit body; [None] where Python
    raises [ValueError]. *)
Definition py_int (s : string) : option Z :=
  let l := strip_by is_space (int_transform (list_ascii_of_string s)) in
  let '(neg, body) :=
    match l with
    | "-"%char :: r => (true, r)
    | "+"%char :: r => (false, r)
    | _ => (false, l)
    end in
  match digits_body false body with
  | Some u => Some (Z.of_int (if neg then Decimal.Neg u else Decimal.Pos u))
  | None => None
  end.

(** Python truthiness of a [str]. *)
Definition truthy (s : string) : bool :=
  negb (String.eqb s "").

(** [substr in s] *)
Definition contains (sub s : string) : bool :=
  match String.index 0 sub s with Some _ => true | None => false end.

End Py.

(** ** Exceptions *)

(** The Python exceptions raised on the paths modelled below. *)
Inductive Exc :=
| NameError (name : string)
| AttributeError (name : string)
| TypeError
| ValueError
| OverflowError
| InvalidResetPasswordToken
| UserInactive
| UserAlreadyVerified.

(** ** Settings ([config.py]) *)

(** The resolved [Settings] fields the engine reads. *)
Record Settings := mkSettings {
  SECRET_KEY : string;
  JWT_ALGORITHM : string
}.

(** [Settings()] with no environment overrides. *)
Definition default_settings : Settings :=
  {| SECRET_KEY := "CHANGE_ME_TO_A_SECURE_SECRET"; JWT_ALGORITHM := "HS256" |}.

(** The fields the [Settings] class declares. *)
Definition settings_fields : list string :=
  ["DATABASE_URL"; "SECRET_KEY"; "JWT_ALGORITHM"; "GOOGLE_CLIENT_ID";
   "GOOGLE_CLIENT_SECRET"; "GOOGLE_CALLBACK_URL"; "VIPPS_CLIENT_ID";
   "VIPPS_CLIENT_SECRET"; "VIPPS_MSN"; "SMTP_HOST"; "SMTP_PORT"; "SMTP_USER";
   "SMTP_PASSWORD"; "SMTP_TLS"; "FROM_EMAIL"; "APP_NAME"; "BASE_URL"; "DEBUG";
   "USE_KEYVAULT"; "AZURE_KEYVAULT_URL"].

(** Reading [settings.<a>]: an attribute that is not a declared field
    raises [AttributeError]. *)
Definition settings_attr (a : string) : option Exc :=
  if existsb (String.eqb a) settings_fields then None else Some (AttributeError a).

(** ** PyJWT *)
Module Jwt.

(** The ["aud"] claim: a string or a list of strings. *)
Inductive Aud :=
| AudStr (s : string)
| AudList (l : list string).

(** The JSON payload of a token, with the claims the code reads or writes;
    [None] is an absent key. *)
Record Claims := mkClaims {
  sub : option string;
  exp : option Z;
  type : option string;
  aud : option Aud;
  password_fgpt : option string
}.

Definition empty_claims : Claims := mkClaims None None None None None.

(** An encoded token: the header's ["alg"], the payload, and the key the
    signature was made with (the signature verifies under a key iff it is
    that key). *)
Record Token := mkToken {
  alg : string;
  signing_key : string;
  payload : Claims
}.

(** [jwt.encode(payload, key, algorithm=alg)] *)
Definition encode (c : Claims) (key algorithm : string) : Token :=
  mkToken algorithm key c.

(** The [jwt.PyJWTError] subclasses [decode] raises here. *)
Inductive PyJWTError :=
| InvalidAlgorithmError
| InvalidSignatureError
| ExpiredSignatureError
| InvalidAudienceError
| MissingRequiredClaimError (claim : string).

Inductive DecodeResult :=
| Decoded (c : Claims)
| Raised (e : PyJWTError).

Definition aud_truthy (a : option Aud) : bool :=
  match a with
  | Some (AudStr s) => Py.truthy s
  | Some (AudList l) => match l with [] => false | _ => true end
  | None => false
  end.

Definition aud_claims (a : Aud) : list string :=
  match a with AudStr s => [s] | AudList l => l end.

(** [PyJWT._validate_aud] *)
Definition validate_aud (c : Claims) (audience : option (list string))
  : option PyJWTError :=
  match audience with
  | None => if aud_truthy (aud c) then Some InvalidAudienceError else None
  | Some auds =>
      match aud c with
      | Some a =>
          if aud_truthy (Some a) then
            if existsb (fun x => existsb (String.eqb x) (aud_claims a)) auds
            then None else Some InvalidAudienceError
          else Some (MissingRequiredClaimError "aud")
      | None => Some (MissingRequiredClaimError "aud")
      end
  end.

(** [PyJWT._validate_exp] with leeway 0: expired when [exp <= now]. *)
Definition validate_exp (c : Claims) (now : Z) : option PyJWTError :=
  match exp c with
  | Some e => if e <=? now then Some ExpiredSignatureError else None
  | None => None
  end.

(** [jwt.decode(token, key, algorithms=algorithms, audience=audience)] at
    time [now]: the header algorithm must be allowed, the signature must
    verify, then the registered claims are validated. *)
Definition decode (t : Token) (key : string) (algorithms : list string)
    (audience : option (list string)) (now : Z) : DecodeResult :=
  if negb (existsb (String.eqb (alg t)) algorithms) then Raised InvalidAlgorithmError
  else if negb (String.eqb (signing_key t) key) then Raised InvalidSignatureError
  else match validate_exp (payload t) now with
       | Some e => Raised e
       | None =>
           match validate_aud (payload t) audience with
           | Some e => Raised e
           | None => Decoded (payload t)
           end
       end.

End Jwt.

(** ** fastapi-users token helpers *)
Module FastapiUsers.
Import Jwt.

(** [fastapi_users.jwt.generate_jwt(data, secret, lifetime_seconds,
    algorithm="HS256")]: copies [data], sets ["exp"] to now + lifetime. *)
Definition generate_jwt (data : Claims) (secret : string) (lifetime_seconds : Z)
    (algorithm : string) (now : Z) : Token :=
  encode {| sub := sub data; exp := Some (now + lifetime_seconds);
            type := type data; aud := aud data;
            password_fgpt := password_fgpt data |} secret algorithm.

(** [decode_jwt(encoded_jwt, secret, audience, algorithms)] *)
Definition decode_jwt (t : Token) (secret : string) (audience : list string)
    (algorithms : list string) (now : Z) : DecodeResult :=
  decode t secret algorithms (Some audience) now.

(** [JWTStrategy.token_audience] *)
Definition auth_audience : list string := ["fastapi-users:auth"].

(** [BaseUserManager.reset_password_token_audience] *)
Definition reset_audience : string := "fastapi-users:reset".

(** [BaseUserManager.reset_password_token_lifetime_seconds] and
    [reset_password_token_algorithm] defaults. *)
Definition reset_lifetime : Z := 3600.
Definition reset_algorithm : string := "HS256".

End FastapiUsers.

(** ** Token minting and validation *)
Module Tokens.
Import Jwt FastapiUsers.

Inductive Kind := Session | Verification | Reset.

(** [generate_verification_token(user_id)] ([auth/local.py]):
    ["exp"] is [utcnow() + timedelta(hours=24)]. *)
Definition generate_verification_token (s : Settings) (user_id : Z) (now : Z) : Token :=
  encode {| sub := Some (Py.str_of_Z user_id); exp := Some (now + 24 * 3600);
            type := Some "verification"; aud := None; password_fgpt := None |}
         (SECRET_KEY s) (JWT_ALGORITHM s).

(** The token [create_auth_cookie_response(user_id)] ([auth/utils.py]) puts
    in the ["auth"] cookie: [generate_jwt] with no [algorithm] argument. *)
Definition auth_cookie_token (s : Settings) (user_id : Z) (now : Z) : Token :=
  generate_jwt {| sub := Some (Py.str_of_Z user_id); exp := None; type := None;
                  aud := Some (AudStr "fastapi-users:auth"); password_fgpt := None |}
               (SECRET_KEY s) 3600 "HS256" now.

(** The token [BaseUserManager.forgot_password] mints
    ([reset_password_token_secret = settings.SECRET_KEY] in [users.py]). *)
Definition reset_password_token (s : Settings) (user_id : Z) (fgpt : string) (now : Z)
  : Token :=
  generate_jwt {| sub := Some (Py.str_of_Z user_id); exp := None; type := None;
                  aud := Some (AudStr reset_audience); password_fgpt := Some fgpt |}
               (SECRET_KEY s) reset_lifetime reset_algorithm now.

Definition mint (s : Settings) (k : Kind) (user_id : Z) (fgpt : string) (now : Z) : Token :=
  match k with
  | Session => auth_cookie_token s user_id now
  | Verification => generate_verification_token s user_id now
  | Reset => reset_password_token s user_id fgpt now
  end.

(** The token checks of the [/auth/verify] handler ([main.py]) before the
    account lookup: [jwt.decode(token, SECRET_KEY,
    algorithms=[JWT_ALGORITHM])], then ["type"] and ["sub"]. *)
Definition verify_token_claims (s : Settings) (t : Token) (now : Z) : option Claims :=
  match decode t (SECRET_KEY s) [JWT_ALGORITHM s] None now with
  | Raised _ => None
  | Decoded c =>
      if negb (match type c with Some ty => String.eqb ty "verification" | None => false end)
      then None
      else match sub c with
           | Some u => if Py.truthy u then Some c else None
           | None => None
           end
  end.

(** [JWTStrategy(secret=SECRET_KEY, lifetime_seconds=3600,
    algorithm=JWT_ALGORITHM).read_token] ([users.py]) up to the id parse. *)
Definition session_token_claims (s : Settings) (t : Token) (now : Z) : option Claims :=
  match decode_jwt t (SECRET_KEY s) auth_audience [JWT_ALGORITHM s] now with
  | Raised _ => None
  | Decoded c => match sub c with Some _ => Some c | None => None end
  end.

(** [BaseUserManager.reset_password] up to the id parse: decode with the
    reset audience, then ["sub"] and ["password_fgpt"] must be present. *)
Definition reset_token_claims (s : Settings) (t : Token) (now : Z) : option Claims :=
  match decode_jwt t (SECRET_KEY s) [reset_audience] [reset_algorithm] now with
  | Raised _ => None
  | Decoded c =>
      match sub c, password_fgpt c with
      | Some _, Some _ => Some c
      | _, _ => None
      end
  end.

(** Validation for a kind: the consuming code path of that kind;
    [None] is the uniform invalid-token failure. *)
Definition validate (s : Settings) (k : Kind) (t : Token) (now : Z) : option Claims :=
  match k with
  | Session => session_token_claims s t now
  | Verification => verify_token_claims s t now
  | Reset => reset_token_claims s t now
  end.

(** The lifetime each kind is minted with. *)
Definition lifetime (k : Kind) : Z :=
  match k with
  | Session => 3600
  | Verification => 24 * 3600
  | Reset => reset_lifetime
  end.

End Tokens.

(** ** Accounts ([models.py]) and the account store *)
Module Accounts.

(** The [User] table row. *)
Record User := mkUser {
  id : Z;
  email : string;
  hashed_password : option string;
  is_active : bool;
  is_superuser : bool;
  is_verified : bool;
  name : option string;
  picture : option string
}.

(** The rows of the [users] table, in rowid order. *)
Definition Store := list User.

(** SQLite's [lower()]: ASCII letters only. *)
Definition ascii_lower (c : ascii) : ascii :=
  let n := nat_of_ascii c in
  if (65 <=? n)%nat && (n <=? 90)%nat then ascii_of_nat (n + 32) else c.

Definition sql_lower (s : string) : string :=
  string_of_list_ascii (map ascii_lower (list_ascii_of_string s)).

Definition lower_email (u : User) : string := sql_lower (email u).

(** [SQLAlchemyUserDatabase.get_by_email(email)]: the row with
    [func.lower(email) == func.lower(:email)], by [scalar_one_or_none].  The
    handlers insert a row only after this lookup found none, so in the
    stores they build at most one row matches. *)
Definition get_by_email (st : Store) (e : string) : option User :=
  find (fun u => String.eqb (lower_email u) (sql_lower e)) st.

(** [session.get(User, id)] *)
Definition get (st : Store) (i : Z) : option User :=
  find (fun u => Z.eqb (id u) i) st.

(** [session.commit()] after mutating the row of [u]. *)
Definition persist (st : Store) (u : User) : Store :=
  map (fun x => if Z.eqb (id x) (id u) then u else x) st.

(** The rowid SQLite assigns to an inserted row: one more than the largest
    rowid, 1 in an empty table (a table already holding rowid [2^63 - 1],
    where SQLite picks a random unused rowid, is not modelled). *)
Definition next_id (st : Store) : Z :=
  match st with
  | [] => 1
  | u :: r => fold_right (fun x m => Z.max (id x) m) (id u) r + 1
  end.

(** [session.add(new_user); session.commit()] *)
Definition add (st : Store) (u : User) : Store := app st [u].

(** The range of a SQLite [INTEGER]; a larger Python [int] passed as a
    key makes the driver raise [OverflowError]. *)
Definition sqlite_int (z : Z) : bool :=
  (- 2 ^ 63 <=? z) && (z <? 2 ^ 63).

(** The primary key: row ids are distinct. *)
Definition wf_store (st : Store) : Prop := NoDup (map id st).

Definition set_verified (u : User) (b : bool) : User :=
  {| id := id u; email := email u; hashed_password := hashed_password u;
     is_active := is_active u; is_superuser := is_superuser u; is_verified := b;
     name := name u; picture := picture u |}.

Definition set_hashed_password (u : User) (h : option string) : User :=
  {| id := id u; email := email u; hashed_password := h;
     is_active := is_active u; is_superuser := is_superuser u;
     is_verified := is_verified u; name := name u; picture := picture u |}.

Definition set_name (u : User) (n : option string) : User :=
  {| id := id u; email := email u; hashed_password := hashed_password u;
     is_active := is_active u; is_superuser := is_superuser u;
     is_verified := is_verified u; name := n; picture := picture u |}.

Definition set_picture (u : User) (p : option string) : User :=
  {| id := id u; email := email u; hashed_password := hashed_password u;
     is_active := is_active u; is_superuser := is_superuser u;
     is_verified := is_verified u; name := name u; picture := p |}.

End Accounts.

(** ** HTTP responses *)

(** A rendered template with the one context entry the handler passes, or
    a 302 redirect, carrying the ["auth"] cookie token when one is set. *)
Inductive Response :=
| Template (template key value : string)
| Redirect (url : string) (auth_cookie : option Jwt.Token).

(** What a route hands back to Starlette: a response, or an exception no
    [except] of the route catches, which the server answers with a 500. *)
Inductive Answer :=
| Answered (r : Response)
| Unhandled (e : Exc).

(** [passlib]-backed [PasswordHelper] of [auth/local.py]. *)
Record PasswordHelper := mkPasswordHelper {
  hash : string -> string;
  verify_and_update : string -> string -> bool * option string
}.

(** ** Name resolution in the [/auth] routes of [main.py] *)

(** The module-level names of [main.py]: its imports, assignments and
    [def]s. *)
Definition main_globals : list string :=
  ["List"; "Optional"; "FastAPI"; "Form"; "Request"; "Depends"; "Response"; "status";
   "HTTPException"; "HTMLResponse"; "RedirectResponse"; "StaticFiles"; "Jinja2Templates";
   "CORSMiddleware"; "BackgroundTasks"; "AsyncSession"; "create_async_engine";
   "sessionmaker"; "asynccontextmanager"; "logging"; "jwt"; "SQLAlchemyUserDatabase";
   "Base"; "User"; "get_async_session"; "FastAPIUsers"; "CookieTransport";
   "AuthenticationBackend"; "JWTStrategy"; "get_settings"; "SessionMiddleware";
   "UserRead"; "UserCreate"; "UserUpdate"; "cookie_auth_backend"; "bearer_auth_backend";
   "get_user_manager"; "UserManager"; "google_router"; "vipps_router"; "local_router";
   "settings"; "logger"; "get_jwt_strategy"; "optional_user"; "create_app";
   "setup_auth_routes"; "setup_frontend_routes"; "app"].

(** The names a route defined in [setup_auth_routes] sees besides its own
    locals: the parameters and nested [def]s of [setup_auth_routes], then
    the globals.  [templates] is a local of [create_app], which is not an
    enclosing scope of these routes. *)
Definition setup_auth_routes_scope : list string :=
  ["app"; "fastapi_users"; "request_verify_token_form"; "request_verify_token";
   "forgot_password_form"; "forgot_password"; "reset_password_form"; "reset_password";
   "verify_email"; "old_verify_email"] ++ main_globals.

(** [templates.TemplateResponse(request, name, context)] evaluated where
    the names [scope] are bound: looking [templates] up raises [NameError]
    when it is not one of them. *)
Definition template_response (scope : list string) (r : Response) : Answer :=
  if existsb (String.eqb "templates") scope then Answered r
  else Unhandled (NameError "templates").

(** A render in a route of [setup_auth_routes]; none of these routes binds
    [templates] itself (it is neither a parameter nor assigned in their
    bodies). *)
Definition auth_render (r : Response) : Answer :=
  template_response setup_auth_routes_scope r.

(** ** fastapi-users' [UserManager] as [users.py] builds it *)

(** The attributes of the [AsyncSession] that [get_user_manager] receives
    as [user_db] (its parameter is [Depends(get_async_session)]), among the
    ones [BaseUserManager] and [SQLAlchemyUserDatabase] use: the session has
    [get], [add] and [delete], not [get_by_email], [create] or [update]. *)
Definition user_db_attrs : list string :=
  ["add"; "commit"; "delete"; "execute"; "flush"; "get"; "merge"; "refresh";
   "rollback"; "scalar"; "scalars"].

(** [self.user_db.<a>(...)]: [AttributeError] for a missing attribute. *)
Definition user_db_call (a : string) : option Exc :=
  if existsb (String.eqb a) user_db_attrs then None else Some (AttributeError a).

(** A Python call with [given] positional arguments to a method taking
    [params] positional parameters after [self]: [TypeError] before the
    body runs when there are too many. *)
Definition call_arity (params given : nat) : option Exc :=
  if (params <? given)%nat then Some TypeError else None.

(** ** Request handlers *)
Module Handlers.
Import Jwt FastapiUsers Tokens Accounts.

(** [GET /auth/verify] ([verify_email] in [main.py]).  The inner [try]
    renders "Invalid verification token" for a [PyJWTError] and for a bad
    ["type"] or ["sub"]; [int(user_id)] raises [ValueError], the lookup of a
    key out of the SQLite range [OverflowError]; the row is marked verified
    and committed before the success render.  Whatever escapes the inner
    [try] reaches the outer [except Exception], which renders
    "Verification failed". *)
Definition verify_email (s : Settings) (st : Store) (t : Token) (now : Z)
  : Store * Answer :=
  let '(st1, inner) :=
    match verify_token_claims s t now with
    | None => (st, auth_render (Template "verify.html" "error" "Invalid verification token"))
    | Some c =>
        let user_id := match sub c with Some u => u | None => "" end in
        match Py.py_int user_id with
        | None => (st, Unhandled ValueError)
        | Some int_id =>
            if negb (sqlite_int int_id) then (st, Unhandled OverflowError)
            else match get st int_id with
                 | None => (st, auth_render (Template "verify.html" "error" "User not found"))
                 | Some user =>
                     (persist st (set_verified user true),
                      auth_render (Template "verify.html" "success" "True"))
                 end
        end
    end in
  match inner with
  | Answered r => (st1, Answered r)
  | Unhandled _ => (st1, auth_render (Template "verify.html" "error" "Verification failed"))
  end.

Definition login_error (msg : string) : Response :=
  Template "local_login.html" "error" msg.

(** [POST /auth/local/login] ([login_user] in [auth/local.py]). *)
Definition login_user (s : Settings) (ph : PasswordHelper) (st : Store)
    (e password : string) (now : Z) : Store * Response :=
  match get_by_email st e with
  | None => (st, login_error "Invalid email or password")
  | Some user =>
      match hashed_password user with
      | None => (st, login_error "Invalid email or password")
      | Some h =>
          if negb (Py.truthy h) then (st, login_error "Invalid email or password")
          else
            let '(verified, updated_password_hash) := verify_and_update ph password h in
            if negb verified then (st, login_error "Invalid email or password")
            else
              let '(st1, user1) :=
                match updated_password_hash with
                | Some h' => let u' := set_hashed_password user (Some h') in
                             (persist st u', u')
                | None => (st, user)
                end in
              if negb (is_active user1) then (st1, login_error "Account is inactive")
              else if negb (is_verified user1)
              then (st1, Template "verify.html" "error"
                           "Please verify your email before logging in.")
              else (st1, Redirect "/dashboard" (Some (auth_cookie_token s (id user1) now)))
  end
  end.

(** [POST /auth/local/register] ([register_user] in [auth/local.py]); the
    verification mail is a background task and does not change the
    response. *)
Definition register_user (ph : PasswordHelper) (st : Store)
    (e password : string) (nm : option string) : Store * Response :=
  if negb (Py.contains "@" e)
  then (st, Template "register.html" "error" "Invalid email address")
  else if (String.length password <? 8)%nat
  then (st, Template "register.html" "error" "Password must be at least 8 characters long")
  else match get_by_email st e with
       | Some _ => (st, Template "register.html" "error" "Email already registered")
       | None =>
           let new_user :=
             {| id := next_id st; email := e; hashed_password := Some (hash ph password);
                is_active := true; is_verified := false; is_superuser := false;
                name := nm; picture := None |} in
           (add st new_user, Template "verify.html" "request" "")
       end.

(** The Google userinfo JSON fields read by the callback; [None] is an
    absent key. *)
Record GoogleUserinfo := mkGoogleUserinfo {
  g_email : option string;
  g_name : option string;
  g_picture : option string
}.

(** [GET /auth/google/callback] ([auth/google.py]).  Its first step, the
    token exchange, reads [settings.CALLBACK_URL]; past it the exchange and
    the userinfo request are taken to succeed, [info] being the userinfo
    JSON.  Every exception ends in the [except Exception] redirect. *)
Definition auth_google_callback (s : Settings) (st : Store) (info : GoogleUserinfo)
    (now : Z) : Store * Response :=
  match settings_attr "CALLBACK_URL" with
  | Some _ => (st, Redirect "/login?error=Authentication+Failed" None)
  | None =>
      match g_email info with
      | Some e =>
          if negb (Py.truthy e) then (st, Redirect "/login?error=No+email+provided" None)
          else
            match get_by_email st e with
            | None =>
                let new_user :=
                  {| id := next_id st; email := e; hashed_password := None;
                     is_active := true; is_verified := true; is_superuser := false;
                     name := g_name info; picture := g_picture info |} in
                (add st new_user,
                 Redirect "/dashboard" (Some (auth_cookie_token s (id new_user) now)))
            | Some user =>
                let user' := set_picture (set_name user (g_name info)) (g_picture info) in
                (persist st user',
                 Redirect "/dashboard" (Some (auth_cookie_token s (id user') now)))
            end
      | None => (st, Redirect "/login?error=No+email+provided" None)
      end
  end.

(** The Vipps userinfo JSON object as its entries, each key with its string
    value; the keys are distinct, as in the [dict] [response.json()]
    returns.  The model covers objects whose ["email"], ["name"],
    ["given_name"] and ["family_name"] entries, when present, are strings;
    the entries the callback does not read stand for entries of any value. *)
Definition VippsUserinfo : Type := list (string * string).

(** [userinfo.get(k)] *)
Definition json_get (info : VippsUserinfo) (k : string) : option string :=
  match find (fun kv => String.eqb (fst kv) k) info with
  | Some kv => Some (snd kv)
  | None => None
  end.

Definition v_email (info : VippsUserinfo) : option string := json_get info "email".
Definition v_name (info : VippsUserinfo) : option string := json_get info "name".
Definition v_given_name (info : VippsUserinfo) : option string := json_get info "given_name".
Definition v_family_name (info : VippsUserinfo) : option string := json_get info "family_name".

(** [name = userinfo.get('name')], falling back to
    [f"{given_name} {family_name}".strip()] with [''] for an absent part. *)
Definition vipps_name (info : VippsUserinfo) : string :=
  let fallback :=
    Py.strip (match v_given_name info with Some g => g | None => "" end
              ++ " " ++ match v_family_name info with Some f => f | None => "" end) in
  match v_name info with
  | Some n => if Py.truthy n then n else fallback
  | None => fallback
  end.

(** [GET /auth/vipps/callback] ([auth/vipps.py]) once the access token was
    obtained; [info] is what [get_userinfo] returned, the empty object
    standing also for the [None] of a failed request (both are falsy). *)
Definition auth_vipps_callback (s : Settings) (st : Store) (info : VippsUserinfo)
    (now : Z) : Store * Response :=
  match info with
  | [] => (st, Redirect "/login?error=Failed+to+get+user+info+from+Vipps" None)
  | _ :: _ =>
      match v_email info with
      | Some e =>
          if negb (Py.truthy e)
          then (st, Redirect "/login?error=No+email+provided+by+Vipps" None)
          else
            let nm := vipps_name info in
            match get_by_email st e with
            | None =>
                let new_user :=
                  {| id := next_id st; email := e; hashed_password := None;
                     is_active := true; is_verified := true; is_superuser := false;
                     name := if Py.truthy nm then Some nm else None; picture := None |} in
                (add st new_user,
                 Redirect "/dashboard" (Some (auth_cookie_token s (id new_user) now)))
            | Some user =>
                let user' := if Py.truthy nm then set_name user (Some nm) else user in
                (persist st user',
                 Redirect "/dashboard" (Some (auth_cookie_token s (id user') now)))
            end
      | None => (st, Redirect "/login?error=No+email+provided+by+Vipps" None)
      end
  end.

(** [BaseUserManager.reset_password(token, password)] of fastapi-users with
    [UserManager.get] ([users.py], [None] for a missing row) and the
    [AsyncSession] as [user_db]: the store after it and the exception it
    raises.  [verify_and_update(user.hashed_password, fingerprint)] raises
    [TypeError] on a [None] hash; the write is [user_db.update] in
    [_update]. *)
Definition um_reset_password (s : Settings) (ph : PasswordHelper) (st : Store)
    (t : Token) (password : string) (now : Z) : Store * option Exc :=
  match reset_token_claims s t now with
  | None => (st, Some InvalidResetPasswordToken)
  | Some c =>
      match Py.py_int (match sub c with Some u => u | None => "" end) with
      | None => (st, Some InvalidResetPasswordToken)
      | Some parsed_id =>
          if negb (sqlite_int parsed_id) then (st, Some OverflowError) else
          match get st parsed_id with
          | None => (st, Some (AttributeError "hashed_password"))
          | Some user =>
              match hashed_password user with
              | None => (st, Some TypeError)
              | Some h =>
                  let fgpt := match password_fgpt c with Some f => f | None => "" end in
                  if negb (fst (verify_and_update ph h fgpt))
                  then (st, Some InvalidResetPasswordToken)
                  else if negb (is_active user) then (st, Some UserInactive)
                  else match user_db_call "update" with
                       | Some exc => (st, Some exc)
                       | None =>
                           (persist st (set_hashed_password user (Some (hash ph password))),
                            None)
                       end
              end
          end
      end
  end.

Definition reset_form_error : Response :=
  Template "reset_password_form.html" "error"
    "Failed to reset password. The token may be invalid or expired.".

(** [POST /auth/reset-password] ([reset_password] in [main.py]); its
    [except Exception] renders [reset_form_error]. *)
Definition reset_password (s : Settings) (ph : PasswordHelper) (st : Store)
    (t : Token) (password : string) (now : Z) : Store * Answer :=
  let '(st1, inner) :=
    if (String.length password <? 8)%nat
    then (st, auth_render (Template "reset_password_form.html" "error"
                             "Password must be at least 8 characters long"))
    else match um_reset_password s ph st t password now with
         | (st', Some exc) => (st', Unhandled exc)
         | (st', None) =>
             (st', auth_render (Template "reset_password_success.html" "success"
                                  "Your password has been reset successfully."))
         end in
  match inner with
  | Answered r => (st1, Answered r)
  | Unhandled _ => (st1, auth_render reset_form_error)
  end.

(** [BaseUserManager.request_verify(user, request)]: [UserInactive] for an
    inactive account, [UserAlreadyVerified] for a verified one; otherwise
    it mints a token and calls the base [on_after_request_verify], which
    returns ([UserManager] overrides neither: the [def]s of [users.py] of
    that name are nested in [on_after_register]). *)
Definition um_request_verify (user : User) : option Exc :=
  if negb (is_active user) then Some UserInactive
  else if is_verified user then Some UserAlreadyVerified
  else None.

(** [BaseUserManager.forgot_password(user, request)]: [UserInactive] for an
    inactive account; otherwise it mints a token and calls the base
    [on_after_forgot_password], which returns. *)
Definition um_forgot_password (user : User) : option Exc :=
  if negb (is_active user) then Some UserInactive else None.

(** [await user_manager.request_verify(user, request, background_tasks)]:
    three arguments for the parameters [(user, request)]. *)
Definition call_request_verify (user : User) : option Exc :=
  match call_arity 2 3 with
  | Some exc => Some exc
  | None => um_request_verify user
  end.

(** [await user_manager.forgot_password(user, request, background_tasks)] *)
Definition call_forgot_password (user : User) : option Exc :=
  match call_arity 2 3 with
  | Some exc => Some exc
  | None => um_forgot_password user
  end.

Definition verify_request_message : Response :=
  Template "verify.html" "message"
    "If your email is registered, a verification link has been sent.".

(** [POST /auth/request-verify-token] ([request_verify_token] in
    [main.py]); it changes no row. *)
Definition request_verify_token (st : Store) (e : string) : Answer :=
  let inner :=
    match get_by_email st e with
    | Some user =>
        match (if negb (is_verified user) then call_request_verify user else None) with
        | Some exc => Unhandled exc
        | None => auth_render verify_request_message
        end
    | None => auth_render verify_request_message
    end in
  match inner with
  | Answered r => Answered r
  | Unhandled _ => auth_render (Template "verify.html" "error" "Failed to send verification email")
  end.

Definition forgot_password_message : Response :=
  Template "reset_password.html" "success"
    "If your email is registered, a password reset link has been sent.".

(** [POST /auth/forgot-password] ([forgot_password] in [main.py]); it
    changes no row. *)
Definition forgot_password (st : Store) (e : string) : Answer :=
  let inner :=
    match get_by_email st e with
    | Some user =>
        match call_forgot_password user with
        | Some exc => Unhandled exc
        | None => auth_render forgot_password_message
        end
    | None => auth_render forgot_password_message
    end in
  match inner with
  | Answered r => Answered r
  | Unhandled _ =>
      auth_render (Template "reset_password.html" "error" "Failed to send password reset email")
  end.

(** The operations of this code on the account store. *)
Inductive Op :=
| OpRegister (e password : string) (nm : option string)
| OpLogin (e password : string)
| OpGoogle (info : GoogleUserinfo)
| OpVipps (info : VippsUserinfo)
| OpVerify (t : Token)
| OpRequestVerify (e : string)
| OpForgotPassword (e : string)
| OpResetPassword (t : Token) (password : string).

Definition run_op (s : Settings) (ph : PasswordHelper) (now : Z) (o : Op) (st : Store)
  : Store :=
  match o with
  | OpRegister e p nm => fst (register_user ph st e p nm)
  | OpLogin e p => fst (login_user s ph st e p now)
  | OpGoogle info => fst (auth_google_callback s st info now)
  | OpVipps info => fst (auth_vipps_callback s st info now)
  | OpVerify t => fst (verify_email s st t now)
  | OpRequestVerify _ => st
  | OpForgotPassword _ => st
  | OpResetPassword t p => fst (reset_password s ph st t p now)
  end.

End Handlers.

(** ** Store transitions *)
Module StoreShapes.
Import Accounts.

(** The shapes a handler leaves the store in: untouched, a row appended,
    or one existing row rewritten without lowering [is_verified]. *)
Definition store_step (st st' : Store) : Prop :=
  st' = st \/ (exists x, st' = add st x) \/
  (exists u0 u', st' = persist st u' /\ In u0 st /\ id u' = id u0 /\
                 (is_verified u0 = true -> is_verified u' = true)).

(** The row keys a handler keeps distinct: an appended row has a fresh id
    and an email no row has up to ASCII case, a rewritten row keeps its id
    and email. *)
Definition store_step_keys (st st' : Store) : Prop :=
  st' = st \/
  (exists x, st' = add st x /\ ~ In (id x) (map id st) /\
             ~ In (lower_email x) (map lower_email st)) \/
  (exists u0 u', st' = persist st u' /\ In u0 st /\ id u' = id u0 /\ email u' = email u0).

(** Distinct row ids and distinct emails. *)
Definition store_inv (st : Store) : Prop :=
  NoDup (map id st) /\ NoDup (map email st).

(** Distinct row ids, and emails distinct up to ASCII case: [get_by_email]
    matches at most one row. *)
Definition store_inv_ci (st : Store) : Prop :=
  NoDup (map id st) /\ NoDup (map lower_email st).

End StoreShapes.

(** ** Session cookie and pages behind it *)
Module Frontend.
Import Jwt Tokens Accounts.

(** What [JWTStrategy.read_token] yields with [UserManager.get]: no user
    ([None]), the account row, or the [OverflowError] of the lookup, which
    [read_token] does not catch. *)
Inductive AuthResult :=
| NoUser
| CurrentUser (u : User)
| ReadError.

(** [JWTStrategy(secret=SECRET_KEY, lifetime_seconds=3600,
    algorithm=JWT_ALGORITHM).read_token(cookie, user_manager)] on the
    ["auth"] cookie: [IntegerIDMixin.parse_id] is [int(sub)], its
    [InvalidID] and a missing row give [None]. *)
Definition read_token (s : Settings) (st : Store) (cookie : option Token) (now : Z)
  : AuthResult :=
  match cookie with
  | None => NoUser
  | Some t =>
      match session_token_claims s t now with
      | None => NoUser
      | Some c =>
          match Py.py_int (match sub c with Some u => u | None => "" end) with
          | None => NoUser
          | Some parsed_id =>
              if negb (sqlite_int parsed_id) then ReadError
              else match get st parsed_id with
                   | None => NoUser
                   | Some u => CurrentUser u
                   end
          end
      end
  end.

(** The answers of the pages behind the session cookie: a page rendered
    for an account, the dashboard data card with the name it greets, a 302
    redirect, a 401 and an unhandled exception. *)
Inductive Page :=
| DashboardPage (u : User)
| ProfilePage (u : User)
| DataCard (greeting_name : string)
| RedirectTo (url : string)
| Unauthorized
| ServerError.

(** [GET /dashboard] with [optional_user = current_user(optional=True)]. *)
Definition dashboard (s : Settings) (st : Store) (cookie : option Token) (now : Z) : Page :=
  match read_token s st cookie now with
  | NoUser => RedirectTo "/login"
  | CurrentUser u => DashboardPage u
  | ReadError => ServerError
  end.

(** [GET /profile] *)
Definition profile (s : Settings) (st : Store) (cookie : option Token) (now : Z) : Page :=
  match read_token s st cookie now with
  | NoUser => RedirectTo "/login"
  | CurrentUser u => ProfilePage u
  | ReadError => ServerError
  end.

(** [user.name or user.email] *)
Definition display_name (u : User) : string :=
  match name u with
  | Some n => if Py.truthy n then n else email u
  | None => email u
  end.

(** [GET /api/dashboard-data] with [current_active_user =
    current_user(active=True)]: no user or an inactive one is a 401. *)
Definition dashboard_data (s : Settings) (st : Store) (cookie : option Token) (now : Z)
  : Page :=
  match read_token s st cookie now with
  | CurrentUser u => if is_active u then DataCard (display_name u) else Unauthorized
  | NoUser => Unauthorized
  | ReadError => ServerError
  end.

End Frontend.

(** ** Outgoing mail ([utils/email.py]) *)
Module Mail.

(** The SMTP fields of [Settings]. *)
Record MailSettings := mkMailSettings {
  SMTP_HOST : option string;
  SMTP_PORT : option Z;
  SMTP_USER : option string;
  SMTP_PASSWORD : option string;
  SMTP_TLS : bool;
  FROM_EMAIL : option string
}.

(** [Settings()] with no environment overrides. *)
Definition default_mail_settings : MailSettings :=
  mkMailSettings None (Some 587) None None true None.

Definition opt_truthy (o : option string) : bool :=
  match o with Some x => Py.truthy x | None => false end.

(** [a or b] with [a : Optional[str]] *)
Definition py_or (a : option string) (b : string) : string :=
  match a with Some x => if Py.truthy x then x else b | None => b end.

(** [s.split(sep)] for a one-character separator, on characters. *)
Fixpoint split_chars (sep : ascii) (l : list ascii) : list (list ascii) :=
  match l with
  | [] => [[]]
  | c :: r =>
      let rest := split_chars sep r in
      if Ascii.eqb c sep then [] :: rest
      else match rest with
           | p :: ps => (c :: p) :: ps
           | [] => [[c]]
           end
  end.

Definition py_split (sep : ascii) (s : string) : list string :=
  map string_of_list_ascii (split_chars sep (list_ascii_of_string s)).

(** [settings.SMTP_USER or settings.FROM_EMAIL or "noreply@example.com"] *)
Definition sender (ms : MailSettings) : string :=
  py_or (SMTP_USER ms) (py_or (FROM_EMAIL ms) "noreply@example.com").

(** Whether each call on the SMTP server returns rather than raising:
    [smtplib.SMTP(host, port)], [starttls()], [login(user, password)] and
    [sendmail(from, to, msg)]. *)
Record SmtpServer := mkSmtpServer {
  connects : bool;
  starttls_ok : bool;
  login_ok : string -> string -> bool;
  sendmail_ok : string -> string -> bool
}.

(** The effect of the background task: the mail written to
    [email_output/], handed to the server, or the exception logged. *)
Inductive MailOutcome :=
| WrittenToFile (to subject html : string)
| Sent (from to subject html : string)
| Failed.

(** [_send_email_task(to_email, subject, html_content)]; the [except
    Exception] logs and returns. *)
Definition send_email_task (ms : MailSettings) (srv : SmtpServer)
    (to subject html : string) : MailOutcome :=
  if negb (opt_truthy (SMTP_HOST ms)) ||
     negb (match SMTP_PORT ms with Some p => negb (p =? 0) | None => false end)
  then WrittenToFile to subject html
  else
    let from := sender ms in
    match nth_error (py_split "@" from) 1 with
    | None => Failed
    | Some _domain =>
        if connects srv
           && (negb (SMTP_TLS ms) || starttls_ok srv)
           && match SMTP_USER ms, SMTP_PASSWORD ms with
              | Some u, Some p =>
                  if Py.truthy u && Py.truthy p then login_ok srv u p else true
              | _, _ => true
              end
           && sendmail_ok srv from to
        then Sent from to subject html
        else Failed
    end.

End Mail.

(** ** Verification mails of a registration *)
Module RegisterMails.
Import Jwt Tokens Accounts.

(** The arguments of a [send_verification_email(background_tasks, email,
    name, verify_url)] call, with the token the link carries. *)
Record VerificationMail := mkVerificationMail {
  to_email : string;
  to_name : option string;
  link_token : Token
}.

(** The verification mails [register_user] ([auth/local.py]) queues: one
    sent directly at time [now1], one from [UserManager.on_after_register]
    ([users.py]) at time [now2]; the handler always sets
    [user_manager.background_tasks] and passes the request. *)
Definition register_verification_mails (s : Settings) (st : Store)
    (e password : string) (nm : option string) (now1 now2 : Z)
  : list VerificationMail :=
  if negb (Py.contains "@" e) then []
  else if (String.length password <? 8)%nat then []
  else match get_by_email st e with
       | Some _ => []
       | None =>
           let new_id := next_id st in
           [mkVerificationMail e nm (generate_verification_token s new_id now1);
            mkVerificationMail e nm (generate_verification_token s new_id now2)]
       end.

End RegisterMails.

(* ================================================================== *)
(** * Proofs *)

(** ** Integer printing and parsing *)
Module PyFacts.
Import Py.

Lemma lstrip_id (p : ascii -> bool) (l : list ascii) :
  forallb (fun c => negb (p c)) l = true -> lstrip_by p l = l.
Proof.
  destruct l as [|c r]; simpl; [reflexivity|].
  intros H. apply andb_true_iff in H as [H _].
  destruct (p c); [discriminate|reflexivity].
Qed.

Lemma strip_by_id (p : ascii -> bool) (l : list ascii) :
  forallb (fun c => negb (p c)) l = true -> strip_by p l = l.
Proof.
  intros H. unfold strip_by. rewrite (lstrip_id p l H).
  rewrite lstrip_id; [apply rev_involutive|].
  apply forallb_forall. intros x Hx. apply in_rev in Hx.
  rewrite forallb_forall in H. exact (H x Hx).
Qed.

Lemma chars_of_uint_no_space (d : Decimal.uint) :
  forallb (fun c => negb (is_space c)) (chars_of_uint d) = true.
Proof. induction d; simpl; auto. Qed.

Lemma int_transform_chars (d : Decimal.uint) :
  int_transform (chars_of_uint d) = chars_of_uint d.
Proof. induction d; simpl; try rewrite IHd; reflexivity. Qed.

Lemma digits_body_chars (d : Decimal.uint) :
  digits_body true (chars_of_uint d) = Some d.
Proof. induction d; simpl; try rewrite IHd; reflexivity. Qed.

Lemma digits_body_chars_start (d : Decimal.uint) :
  d <> Decimal.Nil -> digits_body false (chars_of_uint d) = Some d.
Proof.
  destruct d; intros Hn; [congruence| ..];
    simpl; rewrite digits_body_chars; reflexivity.
Qed.

(** [int(str(n)) == n] *)
Lemma py_int_str_of_Z (z : Z) : py_int (str_of_Z z) = Some z.
Proof.
  unfold py_int, str_of_Z. rewrite list_ascii_of_string_of_list_ascii.
  transitivity (Some (Z.of_int (Z.to_int z)));
    [| now rewrite DecimalZ.of_to].
  destruct z as [|p|p]; simpl.
  - reflexivity.
  - pose proof (DecimalPos.Unsigned.to_uint_nonnil p) as Hn.
    rewrite int_transform_chars.
    rewrite strip_by_id by apply chars_of_uint_no_space.
    destruct (Pos.to_uint p) eqn:E; [congruence| ..];
      simpl; rewrite digits_body_chars; reflexivity.
  - pose proof (DecimalPos.Unsigned.to_uint_nonnil p) as Hn.
    change (int_transform ("-"%char :: chars_of_uint (Pos.to_uint p)))
      with ("-"%char :: int_transform (chars_of_uint (Pos.to_uint p))).
    rewrite int_transform_chars.
    rewrite strip_by_id by (simpl; apply chars_of_uint_no_space).
    rewrite (digits_body_chars_start _ Hn). reflexivity.
Qed.

End PyFacts.

(** ** The account store *)
Module StoreFacts.
Import Accounts.

Lemma get_by_email_in (st : Store) (e : string) (u : User) :
  get_by_email st e = Some u -> In u st.
Proof. unfold get_by_email. intros H. apply find_some in H. tauto. Qed.

Lemma get_some (st : Store) (i : Z) (u : User) :
  get st i = Some u -> In u st /\ id u = i.
Proof.
  unfold get. intros H. apply find_some in H as [H1 H2].
  split; [exact H1 | now apply Z.eqb_eq].
Qed.

Lemma get_in (st : Store) (i : Z) (u : User) : get st i = Some u -> In u st.
Proof. intros H. exact (proj1 (get_some st i u H)). Qed.

Lemma wf_get_in (st : Store) (u : User) :
  wf_store st -> In u st -> get st (id u) = Some u.
Proof.
  unfold wf_store, get. induction st as [|x r IH]; simpl; [tauto|].
  intros Hnd Hin. inversion Hnd as [|? ? Hx Hnd']; subst.
  destruct Hin as [<- | Hin].
  - now rewrite Z.eqb_refl.
  - destruct (Z.eqb_spec (id x) (id u)) as [E|E].
    + exfalso. apply Hx. rewrite E. now apply in_map.
    + now apply IH.
Qed.

Lemma get_persist_same (st : Store) (u' : User) (x : User) :
  get st (id u') = Some x -> get (persist st u') (id u') = Some u'.
Proof.
  unfold get, persist. induction st as [|y r IH]; simpl; [discriminate|].
  destruct (Z.eqb_spec (id y) (id u')) as [E|E]; simpl.
  - now rewrite Z.eqb_refl.
  - apply Z.eqb_neq in E. rewrite E. exact IH.
Qed.

Lemma get_persist_other (st : Store) (u' : User) (i : Z) :
  id u' <> i -> get (persist st u') i = get st i.
Proof.
  intros Hne. unfold get, persist. induction st as [|y r IH]; simpl; [reflexivity|].
  destruct (Z.eqb_spec (id y) (id u')) as [E|E]; simpl.
  - rewrite E, (proj2 (Z.eqb_neq _ _) Hne). exact IH.
  - rewrite IH. reflexivity.
Qed.

Lemma get_add (st : Store) (x : User) (i : Z) (u : User) :
  get st i = Some u -> get (add st x) i = Some u.
Proof.
  unfold get, add. induction st as [|y r IH]; simpl; [discriminate|].
  destruct (Z.eqb (id y) i); [tauto|exact IH].
Qed.

(** Persisting a modified row never lowers [is_verified] of any row when
    the modification does not lower it. *)
Lemma persist_keeps_verified (st : Store) (u0 u' : User) (i : Z) (u : User) :
  wf_store st -> In u0 st -> id u' = id u0 ->
  (is_verified u0 = true -> is_verified u' = true) ->
  get st i = Some u -> is_verified u = true ->
  exists u'', get (persist st u') i = Some u'' /\ is_verified u'' = true.
Proof.
  intros Hwf Hin Hid Hmono Hget Hv.
  destruct (Z.eq_dec (id u') i) as [E|E].
  - pose proof (wf_get_in st u0 Hwf Hin) as G.
    rewrite <- Hid, E, Hget in G. injection G as <-.
    exists u'. split; [| now apply Hmono].
    rewrite <- E. apply (get_persist_same st u' u). now rewrite E.
  - exists u. rewrite get_persist_other by exact E. tauto.
Qed.

Lemma persist_same_row (st : Store) (u : User) :
  wf_store st -> In u st -> persist st u = st.
Proof.
  unfold wf_store, persist. induction st as [|x r IH]; simpl; [reflexivity|].
  intros Hnd Hin. inversion Hnd as [|? ? Hx Hnd']; subst.
  destruct Hin as [<- | Hin].
  - rewrite Z.eqb_refl. f_equal.
    rewrite map_ext_in with (g := fun y => y); [apply map_id|].
    intros y Hy. destruct (Z.eqb_spec (id y) (id x)) as [E|E]; [|reflexivity].
    exfalso. apply Hx. rewrite <- E. now apply in_map.
  - destruct (Z.eqb_spec (id x) (id u)) as [E|E].
    + exfalso. apply Hx. rewrite E. now apply in_map.
    + f_equal. now apply IH.
Qed.

Lemma set_verified_same (u : User) : is_verified u = true -> set_verified u true = u.
Proof. destruct u; simpl; intros ->; reflexivity. Qed.

End StoreFacts.

(** ** Tokens *)
Module TokenFacts.
Import Jwt FastapiUsers Tokens.

Lemma str_of_Z_nonempty (z : Z) : String.eqb (Py.str_of_Z z) "" = false.
Proof.
  unfold Py.str_of_Z. destruct z as [|p|p]; simpl; [reflexivity| |reflexivity].
  pose proof (DecimalPos.Unsigned.to_uint_nonnil p) as Hn.
  destruct (Pos.to_uint p); [congruence| ..]; reflexivity.
Qed.

Lemma str_of_Z_truthy (z : Z) : Py.truthy (Py.str_of_Z z) = true.
Proof. unfold Py.truthy. now rewrite str_of_Z_nonempty. Qed.

(** A token whose ["exp"] has passed never decodes. *)
Lemma decode_expired (t : Token) (key : string) (algs : list string)
    (audience : option (list string)) (now e : Z) :
  exp (payload t) = Some e -> e <= now ->
  exists err, decode t key algs audience now = Raised err.
Proof.
  intros He Hle. unfold decode, validate_exp. rewrite He.
  destruct (negb _); [eauto|]. destruct (negb _); [eauto|].
  apply Z.leb_le in Hle. rewrite Hle. eauto.
Qed.

Lemma validate_raised (s : Settings) (k : Kind) (t : Token) (now : Z) :
  (forall key algs audience, exists err, decode t key algs audience now = Raised err) ->
  validate s k t now = None.
Proof.
  intros H. destruct k; simpl;
    unfold session_token_claims, verify_token_claims, reset_token_claims, decode_jwt.
  - destruct (H (SECRET_KEY s) [JWT_ALGORITHM s] (Some auth_audience)) as [err ->]. reflexivity.
  - destruct (H (SECRET_KEY s) [JWT_ALGORITHM s] None) as [err ->]. reflexivity.
  - destruct (H (SECRET_KEY s) [reset_algorithm] (Some [reset_audience])) as [err ->].
    reflexivity.
Qed.

(** Round trip of every kind, the session kind under the algorithm its
    token is minted with. *)
Lemma validate_mint_roundtrip (s : Settings) (k : Kind) (user_id : Z) (fgpt : string)
    (t now : Z) :
  now < t + lifetime k -> (k = Session -> JWT_ALGORITHM s = "HS256") ->
  exists c, validate s k (mint s k user_id fgpt t) now = Some c
            /\ sub c = Some (Py.str_of_Z user_id).
Proof.
  intros Hnow Halg. destruct k; simpl in *;
    unfold session_token_claims, verify_token_claims, reset_token_claims, decode_jwt,
      auth_cookie_token, generate_verification_token, reset_password_token,
      generate_jwt, encode, decode, validate_exp, validate_aud;
    [rewrite (Halg eq_refl) | | unfold reset_lifetime in *];
    repeat ((rewrite String.eqb_refl) || (progress simpl)).
  - replace (t + 3600 <=? now) with false by (symmetry; apply Z.leb_gt; lia).
    eexists; split; reflexivity.
  - replace (t + 86400 <=? now) with false by (symmetry; apply Z.leb_gt; lia).
    simpl. rewrite str_of_Z_truthy. eexists; split; reflexivity.
  - replace (t + 3600 <=? now) with false by (symmetry; apply Z.leb_gt; lia).
    eexists; split; reflexivity.
Qed.

End TokenFacts.

(** ** Handlers *)
Module HandlerFacts.
Import Jwt Tokens Accounts Handlers StoreFacts StoreShapes.

Ltac split_matches :=
  repeat match goal with
         | |- context [match ?x with _ => _ end] =>
             lazymatch x with
             | context [match _ with _ => _ end] => fail
             | _ => destruct x eqn:?
             end
         end.

(** Every render of the [/auth] routes of [main.py] raises. *)
Lemma auth_render_raises (r : Response) : auth_render r = Unhandled (NameError "templates").
Proof. reflexivity. Qed.

(** [settings.CALLBACK_URL] raises. *)
Lemma callback_url_missing : settings_attr "CALLBACK_URL" = Some (AttributeError "CALLBACK_URL").
Proof. reflexivity. Qed.

(** [user_db.update] raises. *)
Lemma user_db_update_missing : user_db_call "update" = Some (AttributeError "update").
Proof. reflexivity. Qed.

(** The outcome of a login whose password check passes. *)
Lemma login_password_ok (s : Settings) (ph : PasswordHelper) (st : Store)
    (e p : string) (now : Z) (u : User) (h : string) :
  get_by_email st e = Some u -> hashed_password u = Some h -> Py.truthy h = true ->
  fst (verify_and_update ph p h) = true ->
  snd (login_user s ph st e p now) =
    if negb (is_active u) then login_error "Account is inactive"
    else if negb (is_verified u)
    then Template "verify.html" "error" "Please verify your email before logging in."
    else Redirect "/dashboard" (Some (auth_cookie_token s (id u) now)).
Proof.
  intros Hg Hh Ht Hv. unfold login_user. rewrite Hg, Hh, Ht. simpl.
  destruct (verify_and_update ph p h) as [ok upd]. simpl in Hv. subst ok. simpl.
  destruct upd; simpl; destruct (is_active u), (is_verified u); reflexivity.
Qed.

(** The Google callback answers the [AttributeError] of
    [settings.CALLBACK_URL] with its error redirect, whatever the userinfo. *)
Lemma google_callback_fails (s : Settings) (st : Store) (info : GoogleUserinfo) (now : Z) :
  auth_google_callback s st info now = (st, Redirect "/login?error=Authentication+Failed" None).
Proof. unfold auth_google_callback. rewrite callback_url_missing. reflexivity. Qed.

(** Every [/auth/verify] request ends in the [NameError]; the store changes
    only for a valid token whose ["sub"] parses to the id of a row, which
    is then marked verified. *)
Lemma verify_email_outcome (s : Settings) (st : Store) (t : Token) (now : Z) :
  snd (verify_email s st t now) = Unhandled (NameError "templates") /\
  (fst (verify_email s st t now) = st \/
   exists c u, verify_token_claims s t now = Some c /\
     Py.py_int (match sub c with Some x => x | None => "" end) = Some (id u) /\
     get st (id u) = Some u /\
     fst (verify_email s st t now) = persist st (set_verified u true)).
Proof.
  unfold verify_email. rewrite !auth_render_raises.
  destruct (verify_token_claims s t now) as [c|] eqn:Hc; [|split; [reflexivity | left; reflexivity]].
  destruct (Py.py_int _) as [i|] eqn:Hp; [|split; [reflexivity | left; reflexivity]].
  destruct (sqlite_int i); cbn [negb]; [|split; [reflexivity | left; reflexivity]].
  destruct (get st i) as [u|] eqn:Hg; [|split; [reflexivity | left; reflexivity]].
  split; [reflexivity|]. right. exists c, u.
  apply get_some in Hg as Hu. destruct Hu as [_ <-]. auto.
Qed.

Lemma verify_email_answer (s : Settings) (st : Store) (t : Token) (now : Z) :
  verify_email s st t now = (fst (verify_email s st t now), Unhandled (NameError "templates")).
Proof.
  rewrite <- (proj1 (verify_email_outcome s st t now)). destruct (verify_email s st t now).
  reflexivity.
Qed.

(** A valid unexpired verification token for an existing account marks it
    verified; nothing else of the row is read. *)
Lemma verify_email_valid (s : Settings) (st : Store) (u : User) (t now : Z) :
  get st (id u) = Some u -> sqlite_int (id u) = true -> now < t + 24 * 3600 ->
  verify_email s st (generate_verification_token s (id u) t) now =
    (persist st (set_verified u true), Unhandled (NameError "templates")).
Proof.
  intros Hg Hi Hnow.
  destruct (TokenFacts.validate_mint_roundtrip s Verification (id u) "" t now Hnow
              ltac:(discriminate)) as (c & Hc & Hsub).
  simpl in Hc. unfold verify_email. rewrite Hc, Hsub, PyFacts.py_int_str_of_Z, Hi.
  simpl. rewrite Hg. reflexivity.
Qed.

(** fastapi-users' reset never changes a row. *)
Lemma um_reset_password_keeps_store (s : Settings) (ph : PasswordHelper) (st : Store)
    (t : Token) (p : string) (now : Z) :
  fst (um_reset_password s ph st t p now) = st.
Proof.
  unfold um_reset_password.
  destruct (reset_token_claims s t now) as [c|]; [|reflexivity].
  destruct (Py.py_int _) as [i|]; [|reflexivity].
  destruct (sqlite_int i); cbn [negb]; [|reflexivity].
  destruct (get st i) as [u|]; [|reflexivity].
  destruct (hashed_password u) as [h|]; [|reflexivity].
  destruct (fst (verify_and_update ph h _)); cbn [negb]; [|reflexivity].
  destruct (is_active u); cbn [negb]; [|reflexivity].
  rewrite user_db_update_missing. reflexivity.
Qed.

(** Every [/auth/reset-password] request ends in the [NameError] with the
    store unchanged. *)
Lemma reset_password_raises (s : Settings) (ph : PasswordHelper) (st : Store)
    (t : Token) (p : string) (now : Z) :
  reset_password s ph st t p now = (st, Unhandled (NameError "templates")).
Proof.
  unfold reset_password. rewrite !auth_render_raises.
  destruct ((String.length p <? 8)%nat); [reflexivity|].
  pose proof (um_reset_password_keeps_store s ph st t p now) as H.
  destruct (um_reset_password s ph st t p now) as [st' [exc|]];
    cbn [fst] in H; subst st'; reflexivity.
Qed.

(** Every request-verify and forgot-password request ends in the
    [NameError]. *)
Lemma request_handlers_raise (st : Store) (e : string) :
  request_verify_token st e = Unhandled (NameError "templates") /\
  forgot_password st e = Unhandled (NameError "templates").
Proof.
  unfold request_verify_token, forgot_password. rewrite !auth_render_raises.
  destruct (get_by_email st e) as [u|]; [|split; reflexivity].
  destruct (negb (is_verified u)); split; reflexivity.
Qed.

Lemma store_step_keeps_verified (st st' : Store) (i : Z) (u : User) :
  store_step st st' -> wf_store st -> get st i = Some u -> is_verified u = true ->
  exists u'', get st' i = Some u'' /\ is_verified u'' = true.
Proof.
  intros [-> | [[x ->] | (u0 & u' & -> & Hin & Hid & Hm)]] Hwf Hg Hv.
  - eauto.
  - exists u. split; [now apply get_add | exact Hv].
  - eapply persist_keeps_verified; eauto.
Qed.

Ltac store_step_leaf :=
  simpl;
  first
    [ left; reflexivity
    | right; left; eexists; reflexivity
    | right; right; eexists _, _; split; [reflexivity|]; split;
      [ first [ eapply get_by_email_in; eassumption
              | eapply get_in; eassumption ]
      | split; [reflexivity | simpl; auto] ] ].

Lemma run_op_store_step (s : Settings) (ph : PasswordHelper) (now : Z) (o : Op)
    (st : Store) :
  store_step st (run_op s ph now o st).
Proof.
  destruct o; cbn [run_op].
  - unfold register_user. split_matches; store_step_leaf.
  - unfold login_user. split_matches; store_step_leaf.
  - rewrite google_callback_fails. left; reflexivity.
  - unfold auth_vipps_callback. split_matches; store_step_leaf.
  - destruct (proj2 (verify_email_outcome s st t now)) as [-> | (c & u & _ & _ & Hg & ->)];
      [left; reflexivity|].
    right; right. exists u, (set_verified u true).
    split; [reflexivity|]. split; [exact (get_in st (id u) u Hg)|].
    split; [reflexivity | simpl; auto].
  - left; reflexivity.
  - left; reflexivity.
  - rewrite reset_password_raises. left; reflexivity.
Qed.

End HandlerFacts.

(** ** Row keys, registration and sessions *)
Module ExtraFacts.
Import Jwt FastapiUsers Tokens Accounts Handlers Frontend Mail StoreFacts StoreShapes HandlerFacts.

Lemma fold_max_bound (r : Store) (m0 : Z) :
  m0 <= fold_right (fun x m => Z.max (id x) m) m0 r /\
  (forall x, In x r -> id x <= fold_right (fun x m => Z.max (id x) m) m0 r).
Proof.
  induction r as [|y r [IH1 IH2]]; simpl; [split; [lia | tauto]|].
  split; [lia|]. intros x [<- | Hx]; [lia|]. specialize (IH2 x Hx). lia.
Qed.

Lemma next_id_bound (st : Store) (x : User) : In x st -> id x < next_id st.
Proof.
  unfold next_id. destruct st as [|y r]; simpl; [tauto|].
  destruct (fold_max_bound r (id y)) as [H1 H2].
  intros [<- | Hx]; [lia|]. specialize (H2 x Hx). lia.
Qed.

Lemma next_id_fresh (st : Store) : ~ In (next_id st) (map id st).
Proof.
  intros H. apply in_map_iff in H as (x & Hx & Hin).
  pose proof (next_id_bound st x Hin). lia.
Qed.

Lemma get_by_email_none (st : Store) (e : string) :
  get_by_email st e = None -> ~ In e (map email st).
Proof.
  unfold get_by_email. intros H Hin. apply in_map_iff in Hin as (x & <- & Hx).
  pose proof (find_none _ _ H x Hx) as F. cbv beta in F. unfold lower_email in F.
  rewrite String.eqb_refl in F. discriminate.
Qed.

Lemma get_by_email_none_ci (st : Store) (e : string) :
  get_by_email st e = None -> ~ In (sql_lower e) (map lower_email st).
Proof.
  unfold get_by_email. intros H Hin. apply in_map_iff in Hin as (x & Hx & Hin).
  pose proof (find_none _ _ H x Hin) as F. cbv beta in F.
  rewrite Hx, String.eqb_refl in F. discriminate.
Qed.

Lemma map_lower_email (st : Store) : map lower_email st = map sql_lower (map email st).
Proof. rewrite map_map. reflexivity. Qed.

(** Emails distinct up to case are distinct. *)
Lemma store_inv_ci_inv (st : Store) : store_inv_ci st -> store_inv st.
Proof.
  intros [Hids Hl]. split; [exact Hids|].
  rewrite map_lower_email in Hl. exact (NoDup_map_inv _ _ Hl).
Qed.

Lemma NoDup_snoc {A : Type} (l : list A) (a : A) :
  NoDup l -> ~ In a l -> NoDup (app l [a]).
Proof.
  intros H Ha. apply NoDup_app; [exact H | repeat constructor; simpl; tauto |].
  intros b Hb [<- | []]. contradiction.
Qed.

Lemma map_add {A : Type} (f : User -> A) (st : Store) (x : User) :
  map f (add st x) = app (map f st) [f x].
Proof. unfold add. rewrite map_app. reflexivity. Qed.

Lemma map_id_persist (st : Store) (u' : User) : map id (persist st u') = map id st.
Proof.
  unfold persist. rewrite map_map. apply map_ext. intros x.
  destruct (Z.eqb_spec (id x) (id u')); congruence.
Qed.

Lemma wf_same_id (st : Store) (x y : User) :
  wf_store st -> In x st -> In y st -> id x = id y -> x = y.
Proof.
  intros Hwf Hx Hy E.
  pose proof (wf_get_in st x Hwf Hx) as Gx. pose proof (wf_get_in st y Hwf Hy) as Gy.
  rewrite E in Gx. congruence.
Qed.

Lemma map_email_persist (st : Store) (u0 u' : User) :
  wf_store st -> In u0 st -> id u' = id u0 -> email u' = email u0 ->
  map email (persist st u') = map email st.
Proof.
  intros Hwf Hin Hid He. unfold persist. rewrite map_map. apply map_ext_in.
  intros x Hx. destruct (Z.eqb_spec (id x) (id u')) as [E|E]; [|reflexivity].
  rewrite (wf_same_id st x u0 Hwf Hx Hin ltac:(congruence)). congruence.
Qed.

Lemma store_step_keys_inv (st st' : Store) :
  store_step_keys st st' -> store_inv_ci st -> store_inv_ci st'.
Proof.
  intros [-> | [(x & -> & Hi & He) | (u0 & u' & -> & Hin & Hid & He)]] [Hids Hems].
  - split; assumption.
  - split; rewrite map_add; apply NoDup_snoc; assumption.
  - split.
    + rewrite map_id_persist. exact Hids.
    + rewrite map_lower_email, (map_email_persist st u0 u' Hids Hin Hid He),
        <- map_lower_email. exact Hems.
Qed.

Ltac keys_leaf :=
  simpl;
  first
    [ left; reflexivity
    | right; left; eexists; split; [reflexivity|];
      split; [apply next_id_fresh | eapply get_by_email_none_ci; eassumption]
    | right; right; eexists _, _; split; [reflexivity|]; split;
      [ first [ eapply get_by_email_in; eassumption
              | eapply get_in; eassumption ]
      | split; reflexivity ] ].

Lemma run_op_store_step_keys (s : Settings) (ph : PasswordHelper) (now : Z) (o : Op)
    (st : Store) :
  store_step_keys st (run_op s ph now o st).
Proof.
  destruct o; cbn [run_op].
  - unfold register_user. split_matches; keys_leaf.
  - unfold login_user. split_matches; keys_leaf.
  - rewrite google_callback_fails. left; reflexivity.
  - unfold auth_vipps_callback. split_matches; keys_leaf.
  - destruct (proj2 (verify_email_outcome s st t now)) as [-> | (c & u & _ & _ & Hg & ->)];
      [left; reflexivity|].
    right; right. exists u, (set_verified u true).
    split; [reflexivity|]. split; [exact (get_in st (id u) u Hg)|]. split; reflexivity.
  - left; reflexivity.
  - left; reflexivity.
  - rewrite reset_password_raises. left; reflexivity.
Qed.

Lemma register_success (ph : PasswordHelper) (st : Store) (e p : string)
    (nm : option string) :
  Py.contains "@" e = true -> (8 <= String.length p)%nat -> get_by_email st e = None ->
  register_user ph st e p nm =
    (add st {| id := next_id st; email := e; hashed_password := Some (hash ph p);
               is_active := true; is_verified := false; is_superuser := false;
               name := nm; picture := None |},
     Template "verify.html" "request" "").
Proof.
  intros Hc Hl Hg. unfold register_user. rewrite Hc.
  replace ((String.length p <? 8)%nat) with false by (symmetry; apply Nat.ltb_ge; exact Hl).
  rewrite Hg. reflexivity.
Qed.

Lemma get_add_fresh (st : Store) (u : User) :
  ~ In (id u) (map id st) -> get (add st u) (id u) = Some u.
Proof.
  unfold get, add. induction st as [|x r IH]; simpl; intros H.
  - now rewrite Z.eqb_refl.
  - destruct (Z.eqb_spec (id x) (id u)) as [E|E]; [exfalso; apply H; left; exact E|].
    apply IH. tauto.
Qed.

Lemma get_by_email_add_fresh (st : Store) (u : User) :
  get_by_email st (email u) = None -> get_by_email (add st u) (email u) = Some u.
Proof.
  unfold get_by_email, add. induction st as [|x r IH]; simpl; intros H.
  - unfold lower_email. now rewrite String.eqb_refl.
  - destruct (String.eqb (lower_email x) (sql_lower (email u))); [discriminate|]. now apply IH.
Qed.

Lemma persist_add_fresh (st : Store) (u u' : User) :
  ~ In (id u) (map id st) -> id u' = id u -> persist (add st u) u' = add st u'.
Proof.
  intros H Hid. unfold persist, add. rewrite map_app. simpl. rewrite Hid, Z.eqb_refl.
  f_equal. rewrite map_ext_in with (g := fun x => x); [apply map_id|].
  intros x Hx. destruct (Z.eqb_spec (id x) (id u)) as [E|E]; [|reflexivity].
  exfalso. apply H. rewrite <- E. now apply in_map.
Qed.

Lemma get_by_email_persist (st : Store) (e : string) (u u' : User) :
  get_by_email st e = Some u -> id u' = id u -> email u' = email u ->
  get_by_email (persist st u') e = Some u'.
Proof.
  unfold get_by_email, persist. intros H Hid He.
  assert (Hu : lower_email u' = sql_lower e)
    by (apply find_some in H as [_ H]; apply String.eqb_eq in H;
        unfold lower_email in *; congruence).
  induction st as [|x r IH]; simpl in *; [discriminate|].
  destruct (Z.eqb_spec (id x) (id u')) as [E|E]; simpl.
  - now rewrite Hu, String.eqb_refl.
  - destruct (String.eqb (lower_email x) (sql_lower e)) eqn:Ex; [congruence|]. now apply IH.
Qed.

Lemma decode_wrong_key (t : Jwt.Token) (key : string) (algs : list string)
    (audience : option (list string)) (now : Z) :
  signing_key t <> key -> exists err, decode t key algs audience now = Raised err.
Proof.
  intros Hk. unfold decode. destruct (negb _); [eauto|].
  apply String.eqb_neq in Hk. rewrite Hk. simpl. eauto.
Qed.

(** A session cookie minted by [create_auth_cookie_response] reads back as
    the row with that id, under the algorithm it is signed with. *)
Lemma session_cookie_reads (s : Settings) (st : Store) (i t now : Z) :
  JWT_ALGORITHM s = "HS256" -> now < t + 3600 -> sqlite_int i = true ->
  read_token s st (Some (auth_cookie_token s i t)) now =
    match get st i with Some x => CurrentUser x | None => NoUser end.
Proof.
  intros Ha Hn Hi.
  destruct (TokenFacts.validate_mint_roundtrip s Session i "" t now Hn (fun _ => Ha))
    as (c & Hc & Hsub).
  simpl in Hc. unfold read_token. rewrite Hc, Hsub, PyFacts.py_int_str_of_Z, Hi.
  reflexivity.
Qed.

Lemma read_token_rejected (s : Settings) (st : Store) (t : Jwt.Token) (now : Z) :
  (signing_key t <> SECRET_KEY s \/ exists e, exp (payload t) = Some e /\ e <= now) ->
  read_token s st (Some t) now = NoUser.
Proof.
  intros H. unfold read_token, session_token_claims, FastapiUsers.decode_jwt.
  destruct H as [Hk | (e & He & Hle)].
  - destruct (decode_wrong_key t (SECRET_KEY s) [JWT_ALGORITHM s]
                (Some FastapiUsers.auth_audience) now Hk) as [err ->].
    reflexivity.
  - destruct (TokenFacts.decode_expired t (SECRET_KEY s) [JWT_ALGORITHM s]
                (Some FastapiUsers.auth_audience) now e He Hle) as [err ->].
    reflexivity.
Qed.

Lemma split_chars_no_sep (sep : ascii) (l : list ascii) :
  ~ In sep l -> split_chars sep l = [l].
Proof.
  induction l as [|c r IH]; simpl; intros H; [reflexivity|].
  rewrite IH by tauto.
  destruct (Ascii.eqb_spec c sep) as [E|E]; [exfalso; tauto | reflexivity].
Qed.

(** A login whose password check passes without a rehash. *)
Lemma login_accepts (s : Settings) (ph : PasswordHelper) (st : Store) (e p : string) (now : Z) (u : User) (h : string) :
  get_by_email st e = Some u -> hashed_password u = Some h -> Py.truthy h = true ->
  verify_and_update ph p h = (true, None) ->
  login_user s ph st e p now =
    (st, if negb (is_active u) then login_error "Account is inactive"
         else if negb (is_verified u)
         then Template "verify.html" "error" "Please verify your email before logging in."
         else Redirect "/dashboard" (Some (auth_cookie_token s (id u) now))).
Proof.
  intros Hg Hh Ht Hv. unfold login_user. rewrite Hg, Hh, Ht. simpl. rewrite Hv. simpl.
  destruct (is_active u), (is_verified u); reflexivity.
Qed.

(** The shape of a login that sets the session cookie. *)
Lemma login_cookie (s : Settings) (ph : PasswordHelper) (st st' : Store) (e p : string) (tok : Jwt.Token) (now : Z) :
  login_user s ph st e p now = (st', Redirect "/dashboard" (Some tok)) ->
  exists u, get_by_email st e = Some u /\ is_active u = true /\
    ((st' = st /\ tok = auth_cookie_token s (id u) now) \/
     exists h', st' = persist st (set_hashed_password u (Some h')) /\ tok = auth_cookie_token s (id u) now).
Proof.
  intros Hlogin. unfold login_user in Hlogin.
  destruct (get_by_email st e) as [u|] eqn:Hg; [|discriminate].
  destruct (hashed_password u) as [h|]; [|discriminate].
  destruct (Py.truthy h); cbn [negb] in Hlogin; [|discriminate].
  destruct (verify_and_update ph p h) as [ok upd]. destruct ok; cbn [negb] in Hlogin; [|discriminate].
  exists u. split; [reflexivity|].
  destruct upd as [h'|]; cbn [is_active is_verified set_hashed_password id] in Hlogin;
    destruct (is_active u); cbn [negb] in Hlogin; try discriminate;
    destruct (is_verified u); cbn [negb] in Hlogin; try discriminate;
    injection Hlogin as <- <-; split; auto.
  right. exists h'. auto.
Qed.

(** The claims of a reset token before it expires. *)
Lemma reset_claims_mint (s : Settings) (i : Z) (fgpt : string) (t now : Z) :
  now < t + 3600 ->
  reset_token_claims s (reset_password_token s i fgpt t) now =
    Some {| sub := Some (Py.str_of_Z i); exp := Some (t + reset_lifetime); type := None;
            aud := Some (AudStr reset_audience); password_fgpt := Some fgpt |}.
Proof.
  intros Hn. unfold reset_token_claims, decode_jwt, reset_password_token, generate_jwt, encode,
    decode, validate_exp, validate_aud, reset_lifetime, reset_algorithm, reset_audience.
  repeat ((rewrite String.eqb_refl) || (progress simpl)).
  replace (t + 3600 <=? now) with false by (symmetry; apply Z.leb_gt; lia).
  reflexivity.
Qed.

End ExtraFacts.

(** ** Claims *)
Import Jwt FastapiUsers Tokens Accounts Handlers.

(** C1 (round trip of minting and validation).  A verification token
    validates at the [/auth/verify] handler with ["type"] = ["verification"]
    and ["sub"] = [str(user_id)] for every configuration, but the session
    token of [create_auth_cookie_response] is signed with [generate_jwt]'s
    default ["HS256"] while [JWTStrategy] only accepts [JWT_ALGORITHM]: with
    [JWT_ALGORITHM = "HS512"] a freshly minted session token does not
    validate. *)
Theorem session_roundtrip_fails_with_configured_algorithm :
  let s := mkSettings "CHANGE_ME_TO_A_SECURE_SECRET" "HS512" in
  validate s Session (mint s Session 42 "" 0) 1 = None /\
  (exists c, validate s Verification (mint s Verification 42 "" 0) 1 = Some c
             /\ type c = Some "verification" /\ sub c = Some "42").
Proof. split; [reflexivity | eexists; repeat split]. Qed.

(** C2 (kind cross-use rejection).  A token minted for one kind never
    validates for another kind, whatever the settings, the subject and the
    times. *)
Theorem cross_kind_rejected (s : Settings) (kA kB : Kind) (user_id : Z)
    (fgpt : string) (t now : Z) (Hne : kA <> kB) :
  validate s kA (mint s kB user_id fgpt t) now = None.
Proof.
  destruct kA, kB; try congruence; simpl;
    unfold session_token_claims, verify_token_claims, reset_token_claims, decode_jwt,
      auth_cookie_token, generate_verification_token, reset_password_token,
      generate_jwt, encode, decode, validate_exp, validate_aud; simpl;
    repeat (match goal with
            | |- context [if ?b then _ else _] => destruct b; simpl
            end); reflexivity.
Qed.

(** C3 (expiry).  Minting sets ["exp"] to the mint time plus the kind's
    lifetime (3600 s for sessions, 24 h for verification), and a token whose
    ["exp"] lies before the current time fails validation for every kind. *)
Theorem token_expiry (s : Settings) (k : Kind) (user_id : Z) (fgpt : string)
    (t : Z) (tok : Token) (now e : Z)
    (Hexp : exp (payload tok) = Some e) (Hnow : e < now) :
  exp (payload (mint s k user_id fgpt t)) = Some (t + lifetime k) /\
  lifetime Session = 3600 /\ lifetime Verification = 24 * 3600 /\
  validate s k tok now = None.
Proof.
  split; [destruct k; reflexivity|]. split; [reflexivity|]. split; [reflexivity|].
  apply TokenFacts.validate_raised. intros key algs audience.
  apply (TokenFacts.decode_expired tok key algs audience now e Hexp). lia.
Qed.

(** C4 (login gating).  The generic "Invalid email or password" answer
    comes exactly from a failed password check (no account, no usable
    hash, or a wrong password); once the password is right, an inactive
    account gets "Account is inactive", then an active unverified one the
    "verify your email" page, and only an active verified one the cookie. *)
Theorem login_gating (s : Settings) (ph : PasswordHelper) (st : Store)
    (e p : string) (now : Z) :
  (snd (login_user s ph st e p now) = login_error "Invalid email or password" <->
   ~ (exists u h, get_by_email st e = Some u /\ hashed_password u = Some h /\
                  Py.truthy h = true /\ fst (verify_and_update ph p h) = true)) /\
  (forall u h, get_by_email st e = Some u -> hashed_password u = Some h ->
     Py.truthy h = true -> fst (verify_and_update ph p h) = true ->
     snd (login_user s ph st e p now) =
       if negb (is_active u) then login_error "Account is inactive"
       else if negb (is_verified u)
       then Template "verify.html" "error" "Please verify your email before logging in."
       else Redirect "/dashboard" (Some (auth_cookie_token s (id u) now))).
Proof.
  split; [| exact (HandlerFacts.login_password_ok s ph st e p now)].
  split.
  - intros Hinv (u & h & Hg & Hh & Ht & Hv).
    rewrite (HandlerFacts.login_password_ok s ph st e p now u h Hg Hh Ht Hv) in Hinv.
    destruct (is_active u), (is_verified u); simpl in Hinv; discriminate Hinv.
  - intros Hno. unfold login_user.
    destruct (get_by_email st e) as [u|] eqn:Hg; [|reflexivity].
    destruct (hashed_password u) as [h|] eqn:Hh; [|reflexivity].
    destruct (Py.truthy h) eqn:Ht; [|reflexivity]. simpl.
    destruct (verify_and_update ph p h) as [ok upd] eqn:Hv.
    destruct ok; [|reflexivity].
    exfalso. apply Hno. exists u, h. rewrite Hv. auto.
Qed.

(** C5 (provider sign-up).  No Google callback creates an account: the
    callback fails on [settings.CALLBACK_URL] before it reads the
    userinfo, with the store unchanged.  Every account the Vipps callback
    creates is created for a userinfo email no account has, and is
    verified, active, not a superuser and without a password hash. *)
Theorem provider_signup_postcondition (s : Settings) (st : Store) (now : Z) :
  (forall info, fst (auth_google_callback s st info now) = st) /\
  (forall info u, fst (auth_vipps_callback s st info now) = add st u ->
     v_email info = Some (email u) /\ get_by_email st (email u) = None /\
     is_verified u = true /\ hashed_password u = None /\
     is_active u = true /\ is_superuser u = false).
Proof.
  split; [intros info; rewrite HandlerFacts.google_callback_fails; reflexivity|].
  assert (Ladd : forall x, length (add st x) = S (length st))
    by (intros x; unfold add; rewrite length_app; simpl; lia).
  assert (Lp : forall x, length (persist st x) = length st)
    by (intros x; unfold persist; apply length_map).
  intros info u H. unfold auth_vipps_callback in H.
  destruct info as [|kv r].
  { cbn [fst] in H. apply (f_equal (@length User)) in H. rewrite Ladd in H. lia. }
  cbv iota zeta in H.
  destruct (v_email (kv :: r)) as [e|] eqn:He;
    [| cbn [fst] in H; apply (f_equal (@length User)) in H; rewrite Ladd in H; lia].
  destruct (negb (Py.truthy e));
    [cbn [fst] in H; apply (f_equal (@length User)) in H; rewrite Ladd in H; lia|].
  destruct (get_by_email st e) as [x|] eqn:Hg; cbn [fst] in H.
  - apply (f_equal (@length User)) in H. rewrite Ladd, Lp in H. lia.
  - unfold add in H. apply app_inj_tail in H as [_ <-].
    split; [reflexivity|]. split; [exact Hg|]. repeat split.
Qed.

(** C6 (provider update frame).  The Google callback never updates an
    account (it fails on [settings.CALLBACK_URL] first).  When the Vipps
    callback resolves an existing account it either leaves the store
    unchanged or writes back the row with only [name] possibly changed,
    and [name] changes only to the non-empty name the userinfo supplies;
    id, email, password hash, flags and picture stay as they were. *)
Theorem provider_update_frame (s : Settings) (st : Store) (now : Z) :
  (forall info, fst (auth_google_callback s st info now) = st) /\
  (forall info e u, v_email info = Some e -> get_by_email st e = Some u ->
     fst (auth_vipps_callback s st info now) = st \/
     exists u', fst (auth_vipps_callback s st info now) = persist st u' /\
       id u' = id u /\ email u' = email u /\ hashed_password u' = hashed_password u /\
       is_verified u' = is_verified u /\ is_active u' = is_active u /\
       is_superuser u' = is_superuser u /\ picture u' = picture u /\
       (name u' = name u \/
        (Py.truthy (vipps_name info) = true /\ name u' = Some (vipps_name info)))).
Proof.
  split; [intros info; rewrite HandlerFacts.google_callback_fails; reflexivity|].
  intros info e u He Hg. unfold auth_vipps_callback.
  destruct info as [|kv r]; [left; reflexivity|].
  cbv iota zeta. rewrite He.
  destruct (negb (Py.truthy e)); [left; reflexivity|].
  rewrite Hg. right.
  destruct (Py.truthy (vipps_name (kv :: r))) eqn:Ht.
  - exists (set_name u (Some (vipps_name (kv :: r)))).
    repeat (split; [reflexivity|]). right. split; reflexivity.
  - exists u. repeat (split; [reflexivity|]). left. reflexivity.
Qed.

(** C7 (verification idempotent and terminal).  No operation of this code
    makes a verified account unverified, and consuming a valid
    verification token for an already verified account leaves the store
    as it was; but the request does not answer success: the success render
    of the [/auth] routes raises [NameError] on the unbound [templates],
    and so does the render of the [except] branch, so the request ends in
    that exception. *)
Theorem verify_verified_account_raises (s : Settings) (st : Store) (u : User)
    (t now : Z) (Hwf : wf_store st) (Hg : get st (id u) = Some u)
    (Hv : is_verified u = true) (Hi : sqlite_int (id u) = true)
    (Hnow : now < t + 24 * 3600) :
  verify_email s st (generate_verification_token s (id u) t) now
    = (st, Unhandled (NameError "templates")) /\
  (forall ph now' o st' i u', wf_store st' -> get st' i = Some u' ->
     is_verified u' = true ->
     exists u'', get (run_op s ph now' o st') i = Some u'' /\ is_verified u'' = true).
Proof.
  split.
  - rewrite (HandlerFacts.verify_email_valid s st u t now Hg Hi Hnow).
    rewrite StoreFacts.set_verified_same by exact Hv.
    rewrite StoreFacts.persist_same_row; [reflexivity | exact Hwf |].
    exact (StoreFacts.get_in st (id u) u Hg).
  - intros ph now' o st' i u' Hwf' Hg' Hv'.
    eapply HandlerFacts.store_step_keeps_verified;
      [apply HandlerFacts.run_op_store_step | eassumption ..].
Qed.

(** C8 (non-numeric subject).  A correctly signed verification token whose
    ["sub"] is ["abc"] is answered exactly as a token signed with another
    key, and no row changes; but no request of [/auth/verify] ever gets
    the "Invalid verification token" page: each render of the handler
    raises [NameError] on the unbound [templates], so every token failure,
    the [ValueError] of [int("abc")] included, ends in that exception. *)
Theorem non_numeric_sub_raises :
  let c := {| sub := Some "abc"; exp := None; type := Some "verification";
              aud := None; password_fgpt := None |} in
  let tok := encode c (SECRET_KEY default_settings) (JWT_ALGORITHM default_settings) in
  let bad := encode c "another-key" (JWT_ALGORITHM default_settings) in
  verify_token_claims default_settings tok 0 = Some c /\ Py.py_int "abc" = None /\
  verify_token_claims default_settings bad 0 = None /\
  verify_email default_settings [] tok 0 = ([], Unhandled (NameError "templates")) /\
  verify_email default_settings [] bad 0 = verify_email default_settings [] tok 0 /\
  (forall s st t now, snd (verify_email s st t now)
     <> Answered (Template "verify.html" "error" "Invalid verification token")).
Proof.
  intros c tok bad.
  split; [reflexivity|]. split; [reflexivity|]. split; [reflexivity|].
  split; [reflexivity|]. split; [reflexivity|].
  intros s st t now. rewrite (proj1 (HandlerFacts.verify_email_outcome s st t now)).
  discriminate.
Qed.

(** C9 (request-stage non-enumeration).  For every store and every two
    emails, registered or not, the request-verify handler answers both
    alike, and so does the forgot-password handler: every request of
    either ends in the [NameError] of the unbound [templates], raised by
    the render of the neutral message and by the render of the [except]
    branch alike. *)
Theorem request_handlers_uniform (st : Store) (e1 e2 : string) :
  request_verify_token st e1 = request_verify_token st e2 /\
  forgot_password st e1 = forgot_password st e2 /\
  request_verify_token st e1 = Unhandled (NameError "templates") /\
  forgot_password st e1 = Unhandled (NameError "templates").
Proof.
  destruct (HandlerFacts.request_handlers_raise st e1) as [R1 F1].
  destruct (HandlerFacts.request_handlers_raise st e2) as [R2 F2].
  rewrite R1, R2, F1, F2. auto.
Qed.

(** C10 (verification ignores [is_active]).  A valid unexpired
    verification token for an inactive account marks it verified and
    persists the row, [is_active] unread and still false; but the request
    does not report success: the success render raises [NameError] on the
    unbound [templates], as does the render of the [except] branch. *)
Theorem verify_inactive_account_raises (s : Settings) (st : Store) (u : User) (t now : Z)
    (Hg : get st (id u) = Some u) (Hinactive : is_active u = false)
    (Hi : sqlite_int (id u) = true) (Hnow : now < t + 24 * 3600) :
  verify_email s st (generate_verification_token s (id u) t) now
    = (persist st (set_verified u true), Unhandled (NameError "templates")) /\
  get (persist st (set_verified u true)) (id u) = Some (set_verified u true) /\
  is_verified (set_verified u true) = true /\ is_active (set_verified u true) = false.
Proof.
  split; [exact (HandlerFacts.verify_email_valid s st u t now Hg Hi Hnow)|].
  split; [exact (StoreFacts.get_persist_same st (set_verified u true) u Hg)|].
  split; [reflexivity | exact Hinactive].
Qed.

(* ------------------------------------------------------------------ *)
(** Witnesses *)

Lemma cross_kind_rejected_witness :
  Session <> Verification /\
  validate default_settings Verification (mint default_settings Session 42 "" 0) 1 = None.
Proof.
  split; [discriminate|].
  apply (cross_kind_rejected default_settings Verification Session 42 "" 0 1).
  discriminate.
Defined.

Lemma token_expiry_witness :
  exp (payload (mint default_settings Session 42 "" 0)) = Some 3600 /\
  3600 < 3601 /\
  validate default_settings Session (mint default_settings Session 42 "" 0) 3601 = None.
Proof.
  split; [reflexivity|]. split; [lia|].
  apply (token_expiry default_settings Session 42 "" 0
           (mint default_settings Session 42 "" 0) 3601 3600); [reflexivity|lia].
Defined.

Lemma provider_signup_postcondition_witness :
  let info := [("email", "new@example.com"); ("name", "New")] in
  fst (auth_vipps_callback default_settings [] info 0)
    = add [] (mkUser 1 "new@example.com" None true false true (Some "New") None) /\
  is_verified (mkUser 1 "new@example.com" None true false true (Some "New") None) = true /\
  hashed_password (mkUser 1 "new@example.com" None true false true (Some "New") None) = None.
Proof.
  intros info.
  assert (H : fst (auth_vipps_callback default_settings [] info 0)
              = add [] (mkUser 1 "new@example.com" None true false true (Some "New") None))
    by reflexivity.
  destruct (proj2 (provider_signup_postcondition default_settings [] 0) info _ H)
    as (_ & _ & Hv & Hh & _).
  split; [exact H|]. split; [exact Hv | exact Hh].
Defined.

Lemma provider_update_frame_witness :
  let alice := mkUser 1 "alice@example.com" (Some "h") true false true
                      (Some "Alice") (Some "alice.png") in
  let info := [("email", "alice@example.com"); ("given_name", "Ada")] in
  v_email info = Some "alice@example.com" /\
  get_by_email [alice] "alice@example.com" = Some alice /\
  (fst (auth_vipps_callback default_settings [alice] info 0) = [alice] \/
   exists u', fst (auth_vipps_callback default_settings [alice] info 0) = persist [alice] u' /\
     id u' = id alice /\ email u' = email alice /\
     hashed_password u' = hashed_password alice /\
     is_verified u' = is_verified alice /\ is_active u' = is_active alice /\
     is_superuser u' = is_superuser alice /\ picture u' = picture alice /\
     (name u' = name alice \/
      (Py.truthy (vipps_name info) = true /\ name u' = Some (vipps_name info)))).
Proof.
  intros alice info. split; [reflexivity|]. split; [reflexivity|].
  exact (proj2 (provider_update_frame default_settings [alice] 0) info
           "alice@example.com" alice eq_refl eq_refl).
Defined.

Lemma verify_verified_account_raises_witness :
  let alice := mkUser 1 "alice@example.com" (Some "h") true false true None None in
  wf_store [alice] /\ get [alice] 1 = Some alice /\ sqlite_int 1 = true /\
  verify_email default_settings [alice] (generate_verification_token default_settings 1 0) 60
    = ([alice], Unhandled (NameError "templates")).
Proof.
  intros alice.
  assert (Hwf : wf_store [alice]) by (repeat constructor; simpl; tauto).
  split; [exact Hwf|]. split; [reflexivity|]. split; [reflexivity|].
  apply (proj1 (verify_verified_account_raises default_settings [alice] alice 0 60
                  Hwf eq_refl eq_refl eq_refl ltac:(lia))).
Defined.

Lemma verify_inactive_account_raises_witness :
  let bob := mkUser 7 "bob@example.com" (Some "h") false false false None None in
  get [bob] 7 = Some bob /\ is_active bob = false /\
  verify_email default_settings [bob] (generate_verification_token default_settings 7 0) 60
    = ([set_verified bob true], Unhandled (NameError "templates")).
Proof.
  intros bob. split; [reflexivity|]. split; [reflexivity|].
  apply (proj1 (verify_inactive_account_raises default_settings [bob] bob 0 60
                  eq_refl eq_refl eq_refl ltac:(lia))).
Defined.

(* ------------------------------------------------------------------ *)
(** ** Further properties *)
Import Frontend Mail RegisterMails StoreShapes.

(** X1.  Registration refuses an email without "@", then a password shorter
    than 8 characters, then an email already registered, each with its
    error page and the store unchanged. *)
Theorem register_rejections (ph : PasswordHelper) (st : Store) (e p : string) (nm : option string) :
  (Py.contains "@" e = false ->
     register_user ph st e p nm = (st, Template "register.html" "error" "Invalid email address")) /\
  (Py.contains "@" e = true -> (String.length p < 8)%nat ->
     register_user ph st e p nm =
       (st, Template "register.html" "error" "Password must be at least 8 characters long")) /\
  (Py.contains "@" e = true -> (8 <= String.length p)%nat -> forall u, get_by_email st e = Some u ->
     register_user ph st e p nm = (st, Template "register.html" "error" "Email already registered")).
Proof.
  unfold register_user. split; [|split].
  - intros ->. reflexivity.
  - intros -> Hl. apply Nat.ltb_lt in Hl. rewrite Hl. reflexivity.
  - intros -> Hl u Hg. apply Nat.ltb_ge in Hl. rewrite Hl, Hg. reflexivity.
Qed.

(** X2.  A registration that passes the checks appends one row: the
    submitted email, the hash of the password, active, unverified, not a
    superuser, the submitted name, no picture, and an id no row has; ids
    and emails stay distinct. *)
Theorem register_creates_fresh_account (ph : PasswordHelper) (st : Store) (e p : string)
    (nm : option string) (Hc : Py.contains "@" e = true) (Hl : (8 <= String.length p)%nat)
    (Hg : get_by_email st e = None) (Hinv : store_inv st) :
  exists u, register_user ph st e p nm = (add st u, Template "verify.html" "request" "") /\
    email u = e /\ hashed_password u = Some (hash ph p) /\ is_active u = true /\
    is_verified u = false /\ is_superuser u = false /\ name u = nm /\ picture u = None /\
    ~ In (id u) (map id st) /\ store_inv (add st u).
Proof.
  eexists. rewrite (ExtraFacts.register_success ph st e p nm Hc Hl Hg).
  split; [reflexivity|]. do 7 (split; [reflexivity|]).
  split; [apply ExtraFacts.next_id_fresh|].
  destruct Hinv as [Hids Hems].
  split; rewrite ExtraFacts.map_add; apply ExtraFacts.NoDup_snoc.
  - exact Hids.
  - apply ExtraFacts.next_id_fresh.
  - exact Hems.
  - exact (ExtraFacts.get_by_email_none st e Hg).
Qed.

(** X3.  Every sequence of handler operations keeps row ids distinct and
    emails distinct up to ASCII case (so [get_by_email] matches at most one
    row), hence also distinct as strings. *)
Theorem operations_keep_keys_distinct (s : Settings) (ph : PasswordHelper)
    (ops : list (Z * Op)) (st : Store) (Hinv : store_inv_ci st) :
  store_inv_ci (fold_left (fun st' no => run_op s ph (fst no) (snd no) st') ops st) /\
  store_inv (fold_left (fun st' no => run_op s ph (fst no) (snd no) st') ops st).
Proof.
  assert (H : store_inv_ci (fold_left (fun st' no => run_op s ph (fst no) (snd no) st') ops st)).
  { revert st Hinv. induction ops as [|[now o] r IH]; simpl; intros st Hinv; [exact Hinv|].
    apply IH.
    exact (ExtraFacts.store_step_keys_inv _ _ (ExtraFacts.run_op_store_step_keys s ph now o st)
             Hinv). }
  split; [exact H | exact (ExtraFacts.store_inv_ci_inv _ H)].
Qed.

(** X4.  Register, verify, log in: right after registering, the login with
    the same password answers "verify your email"; the verification token
    for the new id marks the row verified (the request itself ends in the
    [NameError] of the unbound [templates]); then the login sets the
    session cookie for the new id. *)
Theorem register_verify_login (s : Settings) (ph : PasswordHelper) (st : Store) (e p : string)
    (nm : option string) (t1 now1 now2 now3 : Z)
    (Hc : Py.contains "@" e = true) (Hl : (8 <= String.length p)%nat)
    (Hg : get_by_email st e = None) (Hi : sqlite_int (next_id st) = true)
    (Hph : verify_and_update ph p (hash ph p) = (true, None))
    (Hh : Py.truthy (hash ph p) = true) (Hnow : now2 < t1 + 24 * 3600) :
  let u := {| id := next_id st; email := e; hashed_password := Some (hash ph p);
              is_active := true; is_verified := false; is_superuser := false;
              name := nm; picture := None |} in
  register_user ph st e p nm = (add st u, Template "verify.html" "request" "") /\
  login_user s ph (add st u) e p now1
    = (add st u, Template "verify.html" "error" "Please verify your email before logging in.") /\
  verify_email s (add st u) (generate_verification_token s (id u) t1) now2
    = (add st (set_verified u true), Unhandled (NameError "templates")) /\
  login_user s ph (add st (set_verified u true)) e p now3
    = (add st (set_verified u true), Redirect "/dashboard" (Some (auth_cookie_token s (id u) now3))).
Proof.
  intros u.
  assert (Hfresh : ~ In (id u) (map id st)) by apply ExtraFacts.next_id_fresh.
  split; [exact (ExtraFacts.register_success ph st e p nm Hc Hl Hg)|].
  split; [|split].
  - rewrite (ExtraFacts.login_accepts s ph (add st u) e p now1 u (hash ph p)
               (ExtraFacts.get_by_email_add_fresh st u Hg) eq_refl Hh Hph).
    reflexivity.
  - rewrite (HandlerFacts.verify_email_valid s (add st u) u t1 now2
               (ExtraFacts.get_add_fresh st u Hfresh) Hi Hnow).
    rewrite (ExtraFacts.persist_add_fresh st u (set_verified u true) Hfresh eq_refl).
    reflexivity.
  - rewrite (ExtraFacts.login_accepts s ph (add st (set_verified u true)) e p now3 (set_verified u true)
               (hash ph p) (ExtraFacts.get_by_email_add_fresh st (set_verified u true) Hg)
               eq_refl Hh Hph).
    reflexivity.
Qed.

(** X5.  Login leaves the store unchanged, except when the password verifies
    and passlib returns an updated hash: then only that account's
    [hashed_password] is replaced. *)
Theorem login_store_frame (s : Settings) (ph : PasswordHelper) (st : Store) (e p : string)
    (now : Z) :
  fst (login_user s ph st e p now) = st \/
  exists u h h', get_by_email st e = Some u /\ hashed_password u = Some h /\
    verify_and_update ph p h = (true, Some h') /\
    fst (login_user s ph st e p now) = persist st (set_hashed_password u (Some h')).
Proof.
  unfold login_user.
  destruct (get_by_email st e) as [u|] eqn:Hg; [|left; reflexivity].
  destruct (hashed_password u) as [h|] eqn:Hh; [|left; reflexivity].
  destruct (Py.truthy h) eqn:Ht; cbn [negb]; [|left; reflexivity].
  destruct (verify_and_update ph p h) as [ok upd] eqn:Hv.
  destruct ok; cbn [negb]; [|left; reflexivity].
  destruct upd as [h'|].
  - right. exists u, h, h'. split; [reflexivity|]. split; [assumption|]. split; [assumption|].
    cbn [is_active is_verified set_hashed_password].
    destruct (is_active u), (is_verified u); reflexivity.
  - left. destruct (is_active u), (is_verified u); reflexivity.
Qed.

(** X6.  Every [/auth/verify] request ends in the [NameError] of the
    unbound [templates]; the store either stays as it was or gets one
    existing row marked verified; it stays as it was for a token signed
    with another key or expired, and for a valid token whose id has no
    row. *)
Theorem verify_email_effects (s : Settings) (st : Store) (t : Jwt.Token) (now : Z) :
  snd (verify_email s st t now) = Unhandled (NameError "templates") /\
  (fst (verify_email s st t now) = st \/
   exists u, get st (id u) = Some u /\
     fst (verify_email s st t now) = persist st (set_verified u true)) /\
  ((signing_key t <> SECRET_KEY s \/ exists e, exp (payload t) = Some e /\ e <= now) ->
     fst (verify_email s st t now) = st) /\
  (forall i t0, sqlite_int i = true -> now < t0 + 24 * 3600 -> get st i = None ->
     verify_email s st (generate_verification_token s i t0) now
       = (st, Unhandled (NameError "templates"))).
Proof.
  destruct (HandlerFacts.verify_email_outcome s st t now) as [Ha Hs].
  split; [exact Ha|]. split.
  { destruct Hs as [Hs | (c & u & _ & _ & Hg & Hs)]; [left; exact Hs|].
    right. exists u. split; assumption. }
  split.
  - intros H. unfold verify_email, verify_token_claims.
    destruct H as [Hk | (e & He & Hle)].
    + destruct (ExtraFacts.decode_wrong_key t (SECRET_KEY s) [JWT_ALGORITHM s] None now Hk)
        as [err ->].
      reflexivity.
    + destruct (TokenFacts.decode_expired t (SECRET_KEY s) [JWT_ALGORITHM s] None now e He Hle)
        as [err ->].
      reflexivity.
  - intros i t0 Hi Hnow Hg.
    destruct (TokenFacts.validate_mint_roundtrip s Verification i "" t0 now Hnow
                ltac:(discriminate)) as (c & Hc & Hsub).
    simpl in Hc. unfold verify_email. rewrite Hc, Hsub, PyFacts.py_int_str_of_Z, Hi.
    simpl. rewrite Hg. reflexivity.
Qed.

(** X7.  The provider callbacks' error redirects: the Google callback
    always redirects with "Authentication Failed" (its token exchange
    reads the undeclared [settings.CALLBACK_URL]); the Vipps callback
    redirects with "Failed to get user info from Vipps" for an empty
    userinfo and with "No email provided by Vipps" for a non-empty one
    without an email or with an empty one; no cookie is set and the store
    is unchanged. *)
Theorem provider_callback_error_redirects (s : Settings) (st : Store) (now : Z) :
  (forall info, auth_google_callback s st info now
                  = (st, Redirect "/login?error=Authentication+Failed" None)) /\
  auth_vipps_callback s st [] now
    = (st, Redirect "/login?error=Failed+to+get+user+info+from+Vipps" None) /\
  (forall info, info <> [] -> v_email info = None \/ v_email info = Some "" ->
     auth_vipps_callback s st info now
       = (st, Redirect "/login?error=No+email+provided+by+Vipps" None)).
Proof.
  split; [intros info; apply HandlerFacts.google_callback_fails|].
  split; [reflexivity|].
  intros [|kv r] Hne H; [exfalso; exact (Hne eq_refl)|].
  unfold auth_vipps_callback. cbv iota zeta.
  destruct H as [H|H]; rewrite H; reflexivity.
Qed.

(** X8.  A Vipps login of an existing account whose userinfo has no name,
    given name or family name leaves the row as it was and sets the
    session cookie for it. *)
Theorem vipps_update_without_name_keeps_row (s : Settings) (st : Store) (e : string) (u : User)
    (info : VippsUserinfo) (now : Z) (Hwf : wf_store st) (Hg : get_by_email st e = Some u)
    (He : v_email info = Some e) (Ht : Py.truthy e = true) (Hn : v_name info = None)
    (Hgn : v_given_name info = None) (Hfn : v_family_name info = None) :
  auth_vipps_callback s st info now
    = (st, Redirect "/dashboard" (Some (auth_cookie_token s (id u) now))).
Proof.
  assert (Hv : vipps_name info = "") by (unfold vipps_name; rewrite Hn, Hgn, Hfn; reflexivity).
  destruct info as [|kv r]; [discriminate He|].
  unfold auth_vipps_callback. cbv iota zeta. rewrite He, Ht. cbn [negb]. rewrite Hv, Hg. cbn.
  rewrite StoreFacts.persist_same_row; [reflexivity | exact Hwf |].
  exact (StoreFacts.get_by_email_in st e u Hg).
Qed.

(** X9.  A reset token minted for an active account whose hash the
    fingerprint matches does not change the password: fastapi-users'
    [reset_password] gets to its write, [user_db.update], which the
    [AsyncSession] given as [user_db] does not have, so it raises
    [AttributeError] with the store unchanged, and the handler's request
    ends in the [NameError] of the unbound [templates]. *)
Theorem reset_keeps_old_password (s : Settings) (ph : PasswordHelper) (st : Store) (u : User)
    (h fgpt p : string) (t now : Z)
    (Hg : get st (id u) = Some u) (Hi : sqlite_int (id u) = true)
    (Hh : hashed_password u = Some h) (Hf : fst (verify_and_update ph h fgpt) = true)
    (Ha : is_active u = true) (Hnow : now < t + 3600) :
  um_reset_password s ph st (reset_password_token s (id u) fgpt t) p now
    = (st, Some (AttributeError "update")) /\
  reset_password s ph st (reset_password_token s (id u) fgpt t) p now
    = (st, Unhandled (NameError "templates")).
Proof.
  split; [|apply HandlerFacts.reset_password_raises].
  unfold um_reset_password.
  rewrite (ExtraFacts.reset_claims_mint s (id u) fgpt t now Hnow). cbn [sub password_fgpt].
  rewrite PyFacts.py_int_str_of_Z, Hi. cbn [negb]. rewrite Hg, Hh, Hf, Ha. reflexivity.
Qed.

(** X10.  The reset handler never changes the store, and every request of
    it ends in the [NameError] of the unbound [templates]. *)
Theorem reset_password_frame (s : Settings) (ph : PasswordHelper) (st : Store) (t : Jwt.Token)
    (p : string) (now : Z) :
  reset_password s ph st t p now = (st, Unhandled (NameError "templates")).
Proof. apply HandlerFacts.reset_password_raises. Qed.

(** X12.  With SMTP configured, a sender address without "@" makes the mail
    task fail on [split("@")[1]] before it contacts the server: no mail is
    sent whatever the server. *)
Theorem mail_sender_without_at_fails (ms : MailSettings) (srv : SmtpServer)
    (to subject html : string) (Hhost : opt_truthy (SMTP_HOST ms) = true)
    (Hport : exists p, SMTP_PORT ms = Some p /\ p <> 0)
    (Hat : ~ In "@"%char (list_ascii_of_string (sender ms))) :
  send_email_task ms srv to subject html = Failed.
Proof.
  destruct Hport as (port & Hp & Hp0). unfold send_email_task. rewrite Hhost, Hp.
  replace (port =? 0) with false by (symmetry; now apply Z.eqb_neq).
  unfold py_split. rewrite (ExtraFacts.split_chars_no_sep _ _ Hat). reflexivity.
Qed.

(** X13.  Without an SMTP host the mail is written to a file; a mail is sent
    only from the configured sender address, which contains "@", to the
    given recipient, after the connection and [sendmail] succeed. *)
Theorem mail_task_outcomes (ms : MailSettings) (srv : SmtpServer) (to subject html : string) :
  (opt_truthy (SMTP_HOST ms) = false -> send_email_task ms srv to subject html
                                         = WrittenToFile to subject html) /\
  (forall from to' subject' html',
     send_email_task ms srv to subject html = Sent from to' subject' html' ->
     from = sender ms /\ In "@"%char (list_ascii_of_string from) /\ to' = to /\
     subject' = subject /\ html' = html /\ connects srv = true /\ sendmail_ok srv from to = true).
Proof.
  unfold send_email_task. split; [intros ->; reflexivity|].
  intros from to' subject' html'.
  destruct (_ || _); [discriminate|].
  destruct (in_dec ascii_dec "@"%char (list_ascii_of_string (sender ms))) as [Hat|Hat].
  - destruct (nth_error _ 1); [|discriminate].
    destruct (connects srv && _ && _ && sendmail_ok srv _ to) eqn:Hcond; [|discriminate].
    apply andb_true_iff in Hcond as [Hcond Hs]. apply andb_true_iff in Hcond as [Hcond _].
    apply andb_true_iff in Hcond as [Hc _].
    intros H. injection H as <- <- <- <-. auto 10.
  - unfold py_split. rewrite (ExtraFacts.split_chars_no_sep _ _ Hat). discriminate.
Qed.

(** X14.  The cookie a successful login sets opens the dashboard for the
    account with that email within 3600 s, and the dashboard data card
    greets it, when [JWT_ALGORITHM] is ["HS256"]. *)
Theorem login_cookie_opens_dashboard (s : Settings) (ph : PasswordHelper) (st st' : Store)
    (e p : string) (tok : Jwt.Token) (now now' : Z)
    (Halg : JWT_ALGORITHM s = "HS256") (Hwf : wf_store st)
    (Hids : forall x, In x st -> sqlite_int (id x) = true)
    (Hlogin : login_user s ph st e p now = (st', Redirect "/dashboard" (Some tok)))
    (Hnow : now' < now + 3600) :
  exists u, get_by_email st' e = Some u /\ dashboard s st' (Some tok) now' = DashboardPage u /\
            dashboard_data s st' (Some tok) now' = DataCard (display_name u).
Proof.
  destruct (ExtraFacts.login_cookie s ph st st' e p tok now Hlogin)
    as (u & Hg & Ha & [[-> ->] | (h' & -> & ->)]);
  pose proof (StoreFacts.get_by_email_in st e u Hg) as Hin;
  pose proof (StoreFacts.wf_get_in st u Hwf Hin) as Gu;
  unfold dashboard, dashboard_data;
  rewrite (ExtraFacts.session_cookie_reads s _ (id u) now now' Halg Hnow (Hids u Hin)).
  - exists u. rewrite Gu, Ha. auto.
  - set (u' := set_hashed_password u (Some h')).
    assert (G : get (persist st u') (id u) = Some u')
      by exact (StoreFacts.get_persist_same st u' u Gu).
    exists u'. rewrite G. cbn [u' is_active set_hashed_password]. rewrite Ha.
    split; [|auto]. exact (ExtraFacts.get_by_email_persist st e u u' Hg eq_refl eq_refl).
Qed.


(** X16.  Without a session cookie, or with one signed with another key or
    expired, the dashboard and profile pages redirect to [/login] and the
    data endpoint answers 401. *)
Theorem pages_without_session (s : Settings) (st : Store) (cookie : option Jwt.Token) (now : Z)
    (Hno : cookie = None \/
           exists t, cookie = Some t /\
             (signing_key t <> SECRET_KEY s \/ exists e, exp (payload t) = Some e /\ e <= now)) :
  dashboard s st cookie now = RedirectTo "/login" /\
  profile s st cookie now = RedirectTo "/login" /\
  dashboard_data s st cookie now = Unauthorized.
Proof.
  assert (H : read_token s st cookie now = NoUser).
  { destruct Hno as [-> | (t & -> & Ht)]; [reflexivity|].
    exact (ExtraFacts.read_token_rejected s st t now Ht). }
  unfold dashboard, profile, dashboard_data. rewrite H. auto.
Qed.


(** X18.  Registration queues verification mails exactly when it appends an
    account; otherwise the store is unchanged. *)
Theorem register_mails_iff_account_created (s : Settings) (ph : PasswordHelper) (st : Store)
    (e p : string) (nm : option string) (now1 now2 : Z) :
  (register_verification_mails s st e p nm now1 now2 = [] <->
   fst (register_user ph st e p nm) = st) /\
  (fst (register_user ph st e p nm) = st \/
   exists u, fst (register_user ph st e p nm) = add st u).
Proof.
  unfold register_verification_mails, register_user.
  destruct (negb (Py.contains "@" e)); [split; [tauto | left; reflexivity]|].
  destruct ((String.length p <? 8)%nat); [split; [tauto | left; reflexivity]|].
  destruct (get_by_email st e); [split; [tauto | left; reflexivity]|].
  split; [|right; eexists; reflexivity]. cbn [fst]. split; [discriminate|].
  intros H. apply (f_equal (@length User)) in H. unfold add in H.
  rewrite length_app in H. simpl in H. lia.
Qed.

(* ------------------------------------------------------------------ *)
(** Witnesses of the further properties *)

Lemma register_creates_fresh_account_witness :
  let ph := mkPasswordHelper (fun p => "H:" ++ p) (fun p h => (String.eqb h ("H:" ++ p), None)) in
  store_inv [] /\
  exists u, register_user ph [] "new@example.com" "password1" None
              = (add [] u, Template "verify.html" "request" "") /\
            is_verified u = false /\ store_inv (add [] u).
Proof.
  intros ph. assert (Hinv : store_inv []) by (split; constructor).
  split; [exact Hinv|].
  destruct (register_creates_fresh_account ph [] "new@example.com" "password1" None
              eq_refl ltac:(simpl; lia) eq_refl Hinv)
    as (u & H1 & _ & _ & _ & H2 & _ & _ & _ & _ & H3).
  exists u. auto.
Defined.

Lemma operations_keep_keys_distinct_witness :
  let ph := mkPasswordHelper (fun p => "H:" ++ p) (fun p h => (String.eqb h ("H:" ++ p), None)) in
  store_inv_ci [] /\
  store_inv_ci (fold_left (fun st' no => run_op default_settings ph (fst no) (snd no) st')
                  [(0, OpRegister "a@example.com" "password1" None);
                   (5, OpVipps [("email", "A@Example.com"); ("name", "A")]);
                   (6, OpRegister "A@EXAMPLE.COM" "password2" None);
                   (7, OpVipps [("email", "b@example.com"); ("given_name", "B")])]
                  []).
Proof.
  intros ph. assert (Hinv : store_inv_ci []) by (split; constructor).
  split; [exact Hinv|].
  exact (proj1 (operations_keep_keys_distinct default_settings ph _ [] Hinv)).
Defined.

Lemma register_verify_login_witness :
  let ph := mkPasswordHelper (fun p => "H:" ++ p) (fun p h => (String.eqb h ("H:" ++ p), None)) in
  let u := mkUser 1 "new@example.com" (Some "H:password1") true false false None None in
  login_user default_settings ph (add [] u) "new@example.com" "password1" 1
    = (add [] u, Template "verify.html" "error" "Please verify your email before logging in.") /\
  login_user default_settings ph (add [] (set_verified u true)) "new@example.com" "password1" 10
    = (add [] (set_verified u true),
       Redirect "/dashboard" (Some (auth_cookie_token default_settings 1 10))).
Proof.
  intros ph u.
  pose proof (register_verify_login default_settings ph [] "new@example.com" "password1" None
                0 1 2 10 eq_refl ltac:(simpl; lia) eq_refl eq_refl eq_refl eq_refl ltac:(lia))
    as (_ & H1 & _ & H3).
  split; [exact H1 | exact H3].
Defined.

Lemma vipps_update_without_name_keeps_row_witness :
  let alice := mkUser 1 "alice@example.com" None true false true (Some "Alice") None in
  auth_vipps_callback default_settings [alice] [("email", "alice@example.com")] 0
    = ([alice], Redirect "/dashboard" (Some (auth_cookie_token default_settings 1 0))).
Proof.
  intros alice.
  assert (Hwf : wf_store [alice]) by (constructor; [simpl; tauto | constructor]).
  exact (vipps_update_without_name_keeps_row default_settings [alice] "alice@example.com" alice
           [("email", "alice@example.com")] 0
           Hwf eq_refl eq_refl eq_refl eq_refl eq_refl eq_refl).
Defined.

Lemma reset_keeps_old_password_witness :
  let ph := mkPasswordHelper (fun p => "H:" ++ p) (fun p h => (String.eqb h ("H:" ++ p), None)) in
  let bob := mkUser 2 "bob@example.com" (Some "H:oldpassword") true false true None None in
  um_reset_password default_settings ph [bob]
    (reset_password_token default_settings 2 "H:H:oldpassword" 0) "newpassword" 60
    = ([bob], Some (AttributeError "update")) /\
  reset_password default_settings ph [bob]
    (reset_password_token default_settings 2 "H:H:oldpassword" 0) "newpassword" 60
    = ([bob], Unhandled (NameError "templates")).
Proof.
  intros ph bob.
  assert (Hf : fst (verify_and_update ph "H:oldpassword" "H:H:oldpassword") = true)
    by reflexivity.
  exact (reset_keeps_old_password default_settings ph [bob] bob "H:oldpassword"
           "H:H:oldpassword" "newpassword" 0 60 eq_refl eq_refl eq_refl Hf eq_refl
           ltac:(lia)).
Defined.

Lemma mail_sender_without_at_fails_witness :
  let ms := mkMailSettings (Some "smtp.sendgrid.net") (Some 587) (Some "apikey") (Some "SG.key")
              true (Some "noreply@example.org") in
  sender ms = "apikey" /\
  send_email_task ms (mkSmtpServer true true (fun _ _ => true) (fun _ _ => true))
    "user@example.com" "Verify Your Email Address" "<p>link</p>" = Failed.
Proof.
  intros ms. split; [reflexivity|].
  apply mail_sender_without_at_fails; [reflexivity | exists 587; split; [reflexivity | lia] |].
  vm_compute. intros H. repeat (destruct H as [H|H]; [discriminate H|]). exact H.
Defined.

Lemma login_cookie_opens_dashboard_witness :
  let ph := mkPasswordHelper (fun p => "H:" ++ p) (fun p h => (String.eqb h ("H:" ++ p), None)) in
  let alice := mkUser 1 "alice@example.com" (Some "H:password1") true false true (Some "Alice") None in
  login_user default_settings ph [alice] "alice@example.com" "password1" 0
    = ([alice], Redirect "/dashboard" (Some (auth_cookie_token default_settings 1 0))) /\
  exists u, dashboard default_settings [alice] (Some (auth_cookie_token default_settings 1 0)) 100
              = DashboardPage u /\
            dashboard_data default_settings [alice] (Some (auth_cookie_token default_settings 1 0)) 100
              = DataCard "Alice".
Proof.
  intros ph alice.
  assert (Hwf : wf_store [alice]) by (constructor; [simpl; tauto | constructor]).
  assert (Hids : forall x, In x [alice] -> sqlite_int (id x) = true)
    by (intros x [<- | []]; reflexivity).
  split; [reflexivity|].
  destruct (login_cookie_opens_dashboard default_settings ph [alice] [alice] "alice@example.com"
              "password1" (auth_cookie_token default_settings 1 0) 0 100
              eq_refl Hwf Hids eq_refl ltac:(lia)) as (u & Hg & H1 & H2).
  vm_compute in Hg. injection Hg as <-.
  exists alice. split; [exact H1 | exact H2].
Defined.


Lemma pages_without_session_witness :
  let tok := auth_cookie_token default_settings 1 0 in
  exp (payload tok) = Some 3600 /\
  dashboard default_settings [] (Some tok) 3600 = RedirectTo "/login" /\
  dashboard_data default_settings [] (Some tok) 3600 = Unauthorized.
Proof.
  intros tok. split; [reflexivity|].
  assert (Hno : Some tok = None \/
                exists t, Some tok = Some t /\
                  (signing_key t <> SECRET_KEY default_settings \/
                   exists e, exp (payload t) = Some e /\ e <= 3600)).
  { right. exists tok. split; [reflexivity|]. right. exists 3600. split; [reflexivity | lia]. }
  destruct (pages_without_session default_settings [] (Some tok) 3600 Hno) as (H1 & _ & H3).
  split; assumption.
Defined.

